(** * The HiGHS solver adapter of python-mip ([mip/highs.py])

    A shallow embedding of [SolverHighs] and of the module-level library
    resolver, followed by the properties of the adapter.

    Conventions of the embedding:
    - Python [float] and C [double] are the binary64 floats of [PrimFloat];
      a Python [int] is a [Z]; a [HighsInt] is a [Z] in the range of a C
      [int], and an integer that a method takes from its arguments and passes
      to a foreign function (the index of a variable, the number of entries of
      a row) is checked against that range, as cffi does;
    - a method of [SolverHighs] is a computation in the monad [M]: it takes the
      adapter object, and gives an outcome (a returned value or a raised
      exception) together with the adapter object as the call leaves it;
    - the native model behind the opaque handle [self._model] is the record
      [Highs.t]; the foreign functions of module [Highs] act on it, and what
      the library decides by itself (which columns and rows it takes, what it
      stores of them, its info values) is the record [Highs.Lib], kept in
      [self._lib]. *)

From Stdlib Require Import ZArith String Ascii Floats Lia List.
From stdpp Require Import gmap strings list.

Open Scope string_scope.
Open Scope list_scope.
Open Scope Z_scope.

(** ** Python values and exceptions *)

Inductive exn :=
| NotImplementedError (msg : string)
| FileNotFoundError (msg : string)
| ModuleNotFoundError (msg : string)
| ValueError (msg : string)
| OSError (msg : string)
| KeyError
| IndexError
| AssertionError
| OverflowError
| NameError.

(** Every exception class above derives from [Exception]. *)
Definition isinstance_Exception (e : exn) : bool := true.

Inductive outcome (A : Type) :=
| Returned (a : A)
| Raised (e : exn).
Arguments Returned {A} a.
Arguments Raised {A} e.

#[export] Instance outcome_ret : MRet outcome := λ A a, Returned a.

#[export] Instance outcome_bind : MBind outcome := λ A B f m,
  match m with
  | Returned a => f a
  | Raised e => Raised e
  end.

(** [l[i]] on a Python list: a negative index counts from the end. *)
Definition py_getitem {A} (l : list A) (i : Z) : option A :=
  if decide (0 ≤ i) then l !! Z.to_nat i
  else if decide (- Z.of_nat (length l) ≤ i)
       then l !! Z.to_nat (Z.of_nat (length l) + i)
       else None.

(** [x != 0.0] on floats. *)
Definition float_ne (x y : float) : bool := negb (PrimFloat.eqb x y).

(** ** The front end *)

(** Modelled from the spec: the front-end package [mip] (its constants, [Var],
    [LinExpr], [xsum] and [Model.vars]) lies outside [highs.py].  A linear
    expression is a coefficient mapping keyed by variable, a constant and a
    sense; a variable carries its column index. *)
Module mip.

Definition INF : float := infinity.

Definition CONTINUOUS : string := "C".
Definition BINARY : string := "B".
Definition INTEGER : string := "I".

Definition EQUAL : string := "=".
Definition LESS_OR_EQUAL : string := "<".
Definition GREATER_OR_EQUAL : string := ">".

Definition MINIMIZE : string := "MIN".
Definition MAXIMIZE : string := "MAX".

Record Var := { idx : Z }.

#[export] Instance Var_eq_dec : EqDecision Var.
Proof. solve_decision. Defined.

(** A variable hashes to its index. *)
#[export] Instance Var_countable : Countable Var :=
  inj_countable' idx (λ i, {| idx := i |}) (λ v, match v with {| idx := _ |} => eq_refl end).

Record LinExpr := {
  expr : gmap Var float;
  const : float;
  sense : string }.

(** [expr.items()] *)
Definition items (e : gmap Var float) : list (Var * float) := map_to_list e.

Record Model := { vars : list Var }.

(** [LinExpr.add_var]: a variable already in the mapping has the coefficient
    added to its entry, a new one is inserted. *)
Definition add_var (e : gmap Var float) (var : Var) (coeff : float)
  : gmap Var float :=
  match e !! var with
  | Some c => <[var := (c + coeff)%float]> e
  | None => <[var := coeff]> e
  end.

(** [xsum] of the terms [coeff * var]. *)
Definition xsum (terms : list (Var * float)) : LinExpr :=
  {| expr := fold_left (λ e t, add_var e t.1 t.2) terms ∅;
     const := 0%float;
     sense := "" |}.

(** [LinExpr.add_const]. *)
Definition add_const (e : LinExpr) (val : float) : LinExpr :=
  {| expr := expr e; const := (const e + val)%float; sense := sense e |}.

Definition set_sense (e : LinExpr) (s : string) : LinExpr :=
  {| expr := expr e; const := const e; sense := s |}.

End mip.

(** ** The native model *)

(** Modelled from the spec: the HiGHS library is outside [highs.py], which has
    only the declarations of [HEADER].  The model behind a handle is its
    columns, its rows, the objective offset and the objective sense.  Every
    call returns a status.  A call that adds a column or a row either
    allocates the next index or, when the library refuses the column or the
    row, changes nothing and reports an error status; a call that names a
    column outside the model changes nothing and reports an error status. *)
Module Highs.

(** [typedef int HighsInt]: the values are those of a C [int]. *)
Definition HighsInt := Z.

Definition INT_MIN : Z := - 2 ^ 31.
Definition INT_MAX : Z := 2 ^ 31 - 1.

Definition is_int (i : Z) : bool := bool_decide (INT_MIN ≤ i ≤ INT_MAX).

Definition kHighsObjSenseMinimize : HighsInt := 1.
Definition kHighsObjSenseMaximize : HighsInt := -1.

Definition kHighsVarTypeContinuous : HighsInt := 0.
Definition kHighsVarTypeInteger : HighsInt := 1.

Definition kHighsStatusError : HighsInt := -1.
Definition kHighsStatusOk : HighsInt := 0.

Record Col := {
  col_cost : float;
  col_lower : float;
  col_upper : float;
  col_integrality : HighsInt }.

Record Row := {
  row_lower : float;
  row_upper : float;
  row_index : list HighsInt;
  row_value : list float }.

Record t := {
  cols : list Col;
  rows : list Row;
  offset : float;
  obj_sense : HighsInt }.

Definition set_cols (h : t) (cs : list Col) : t :=
  {| cols := cs; rows := rows h; offset := offset h; obj_sense := obj_sense h |}.

Definition set_col_cost (cost : float) (c : Col) : Col :=
  {| col_cost := cost; col_lower := col_lower c; col_upper := col_upper c;
     col_integrality := col_integrality c |}.

Definition set_col_integrality (k : HighsInt) (c : Col) : Col :=
  {| col_cost := col_cost c; col_lower := col_lower c; col_upper := col_upper c;
     col_integrality := k |}.

Definition in_cols (h : t) (col : HighsInt) : bool :=
  bool_decide (0 ≤ col < Z.of_nat (length (cols h))).

Definition Highs_create : t :=
  {| cols := []; rows := []; offset := 0%float;
     obj_sense := kHighsObjSenseMinimize |}.

Definition Highs_getNumCol (h : t) : HighsInt := Z.of_nat (length (cols h)).
Definition Highs_getNumRow (h : t) : HighsInt := Z.of_nat (length (rows h)).

(** What the library decides by itself, for the model [h] it is called on:
    - [new_col_bounds h lower upper]: the bounds it stores for a new column,
      or [None] when it refuses the column;
    - [new_row h lower upper index value]: the row it stores for these bounds
      and entries, or [None] when it refuses the row;
    - [double_info h name], [int_info h name]: the value of the info [name]
      for the model [h], or [None] when it has no such value. *)
Record Lib := {
  new_col_bounds : t → float → float → option (float * float);
  new_row : t → float → float → list HighsInt → list float → option Row;
  double_info : t → string → option float;
  int_info : t → string → option Z }.

Definition Highs_addVar (lib : Lib) (lower upper : float) (h : t) : HighsInt * t :=
  match new_col_bounds lib h lower upper with
  | Some (lo, up) =>
      (kHighsStatusOk,
       set_cols h (cols h ++ [ {| col_cost := 0%float; col_lower := lo;
                                  col_upper := up;
                                  col_integrality := kHighsVarTypeContinuous |} ]))
  | None => (kHighsStatusError, h)
  end.

(** The first [num_new_nz] entries are read.  A row with an entry on a column
    outside the model is refused. *)
Definition Highs_addRow (lib : Lib) (lower upper : float) (num_new_nz : HighsInt)
    (index : list HighsInt) (value : list float) (h : t) : HighsInt * t :=
  let index := take (Z.to_nat num_new_nz) index in
  let value := take (Z.to_nat num_new_nz) value in
  if forallb (in_cols h) index
  then match new_row lib h lower upper index value with
       | Some row =>
           (kHighsStatusOk,
            {| cols := cols h; rows := rows h ++ [row];
               offset := offset h; obj_sense := obj_sense h |})
       | None => (kHighsStatusError, h)
       end
  else (kHighsStatusError, h).

Definition Highs_changeColCost (col : HighsInt) (cost : float) (h : t)
  : HighsInt * t :=
  if in_cols h col
  then (kHighsStatusOk, set_cols h (alter (set_col_cost cost) (Z.to_nat col) (cols h)))
  else (kHighsStatusError, h).

Definition Highs_changeColIntegrality (col : HighsInt) (integrality : HighsInt)
    (h : t) : HighsInt * t :=
  if in_cols h col
  then (kHighsStatusOk,
        set_cols h (alter (set_col_integrality integrality) (Z.to_nat col) (cols h)))
  else (kHighsStatusError, h).

(** Column [from_col + j] takes [integrality[j]], for the columns of the range. *)
Definition Highs_changeColsIntegralityByRange (from_col to_col : HighsInt)
    (integrality : list HighsInt) (h : t) : HighsInt * t :=
  if in_cols h from_col && in_cols h to_col && bool_decide (from_col ≤ to_col)
  then (kHighsStatusOk,
        set_cols h
          (imap (fun k c =>
                   if bool_decide (from_col ≤ Z.of_nat k ≤ to_col)
                   then match integrality !! (k - Z.to_nat from_col)%nat with
                        | Some i => set_col_integrality i c
                        | None => c
                        end
                   else c) (cols h)))
  else (kHighsStatusError, h).

Definition Highs_changeObjectiveOffset (off : float) (h : t) : HighsInt * t :=
  (kHighsStatusOk,
   {| cols := cols h; rows := rows h; offset := off; obj_sense := obj_sense h |}).

Definition Highs_changeObjectiveSense (sense : HighsInt) (h : t) : HighsInt * t :=
  if bool_decide (sense = kHighsObjSenseMinimize ∨ sense = kHighsObjSenseMaximize)
  then (kHighsStatusOk,
        {| cols := cols h; rows := rows h; offset := offset h; obj_sense := sense |})
  else (kHighsStatusError, h).

Definition Highs_getObjectiveOffset (h : t) : HighsInt * float :=
  (kHighsStatusOk, offset h).

Definition Highs_getObjectiveSense (h : t) : HighsInt * HighsInt :=
  (kHighsStatusOk, obj_sense h).



(** The output buffers of a range query: the queried slice is written over
    the front of the caller's buffer. *)
Definition write_buffer {A} (src buf : list A) : list A :=
  src ++ drop (length src) buf.

Definition slice {A} (from_ix to_ix : HighsInt) (l : list A) : list A :=
  take (Z.to_nat (to_ix - from_ix + 1)) (drop (Z.to_nat from_ix) l).

Record ColsByRange := {
  out_num_col : HighsInt;
  out_costs : list float;
  out_lower : list float;
  out_upper : list float;
  out_num_nz : HighsInt }.

Definition count_nz (from_col to_col : HighsInt) (h : t) : HighsInt :=
  Z.of_nat (length (filter (fun j => from_col ≤ j ≤ to_col)
                           (concat (map row_index (rows h))))).

(** The matrix pointers are [NULL] in the adapter's only call, so the matrix
    outputs are left out. *)
Definition Highs_getColsByRange (from_col to_col : HighsInt)
    (num_col : HighsInt) (costs lower upper : list float) (num_nz : HighsInt)
    (h : t) : HighsInt * ColsByRange :=
  if in_cols h from_col && in_cols h to_col && bool_decide (from_col ≤ to_col)
  then
    let cs := slice from_col to_col (cols h) in
    (kHighsStatusOk,
     {| out_num_col := Z.of_nat (length cs);
        out_costs := write_buffer (map col_cost cs) costs;
        out_lower := write_buffer (map col_lower cs) lower;
        out_upper := write_buffer (map col_upper cs) upper;
        out_num_nz := count_nz from_col to_col h |})
  else
    (kHighsStatusError,
     {| out_num_col := num_col; out_costs := costs; out_lower := lower;
        out_upper := upper; out_num_nz := num_nz |}).

End Highs.

(** ** The adapter object and its monad *)

(** The attributes of a [SolverHighs] object.  [_lib] is the library that was
    loaded; [model] is the front-end model stored by the base class; [_model]
    is the native model behind the handle. *)
Record SolverHighs := {
  _lib : Highs.Lib;
  model : mip.Model;
  _model : Highs.t;
  _name : string;
  _var_name : list string;
  _var_col : gmap string Z;
  _cons_name : list string;
  _cons_col : gmap string Z }.

Definition M (A : Type) : Type := SolverHighs → outcome A * SolverHighs.

#[export] Instance M_ret : MRet M := λ A a self, (Returned a, self).

#[export] Instance M_bind : MBind M := λ A B f m self,
  match m self with
  | (Returned a, self') => f a self'
  | (Raised e, self') => (Raised e, self')
  end.

Definition raise {A} (e : exn) : M A := λ self, (Raised e, self).

Definition with_model (self : SolverHighs) (h : Highs.t) : SolverHighs :=
  {| _lib := _lib self; model := model self; _model := h; _name := _name self;
     _var_name := _var_name self; _var_col := _var_col self;
     _cons_name := _cons_name self; _cons_col := _cons_col self |}.

(** A foreign call on [self._model] that may change the native model. *)
Definition call {A} (f : Highs.t → A * Highs.t) : M A := λ self,
  let '(a, h) := f (_model self) in (Returned a, with_model self h).

(** A foreign call that only reads the native model. *)
Definition query {A} (f : Highs.t → A) : M A := λ self,
  (Returned (f (_model self)), self).

(** The same for the foreign functions whose result the library decides. *)
Definition call_lib {A} (f : Highs.Lib → Highs.t → A * Highs.t) : M A := λ self,
  let '(a, h) := f (_lib self) (_model self) in (Returned a, with_model self h).

Definition query_lib {A} (f : Highs.Lib → Highs.t → A) : M A := λ self,
  (Returned (f (_lib self) (_model self)), self).

(** A computation that does not touch the adapter. *)
Definition lift {A} (o : outcome A) : M A := λ self, (o, self).

(** A Python [int] passed where the foreign function takes an [int]. *)
Definition to_int (i : Z) : outcome Highs.HighsInt :=
  if Highs.is_int i then Returned i else Raised OverflowError.

(** [ffi.new("int[]", l)] *)
Definition new_int_array (l : list Z) : outcome (list Highs.HighsInt) :=
  if forallb Highs.is_int l then Returned l else Raised OverflowError.

(** [for x in l: body(x)] *)
Fixpoint for_each {A} (l : list A) (body : A → M unit) : M unit :=
  match l with
  | [] => mret ()
  | x :: l' => body x;; for_each l' body
  end.

(** [[f(x) for x in l if ...]]: [f] gives [None] for a filtered element. *)
Fixpoint collect {A B} (l : list A) (f : A → M (option B)) : M (list B) :=
  match l with
  | [] => mret []
  | x :: l' =>
      o ← f x;
      r ← collect l' f;
      mret (match o with Some b => b :: r | None => r end)
  end.

(** [range(n)] *)
Definition range (n : Z) : list Z := seqZ 0 n.

(** ** The methods of [SolverHighs] *)

Definition num_cols : M Z := query Highs.Highs_getNumCol.

Definition num_rows : M Z := query Highs.Highs_getNumRow.

(** [self._var_name.append(name); self._var_col[name] = col] *)
Definition store_var_name (name : string) (col : Z) : M unit := λ self,
  (Returned (),
   {| _lib := _lib self; model := model self; _model := _model self; _name := _name self;
      _var_name := _var_name self ++ [name];
      _var_col := <[name := col]> (_var_col self);
      _cons_name := _cons_name self; _cons_col := _cons_col self |}).

(** [self._cons_name.append(name); self._cons_col[name] = row] *)
Definition store_cons_name (name : string) (row : Z) : M unit := λ self,
  (Returned (),
   {| _lib := _lib self; model := model self; _model := _model self; _name := _name self;
      _var_name := _var_name self; _var_col := _var_col self;
      _cons_name := _cons_name self ++ [name];
      _cons_col := <[name := row]> (_cons_col self) |}).

(** The [column] argument is never read by the method and is left out. *)
Definition add_var (obj lb ub : float) (var_type : string) (name : string)
  : M unit :=
  col ← num_cols;
  status ← call_lib (λ lib, Highs.Highs_addVar lib lb ub);
  status ← call (Highs.Highs_changeColCost col obj);
  (if bool_decide (var_type ≠ mip.CONTINUOUS)
   then status ← call (Highs.Highs_changeColIntegrality col Highs.kHighsVarTypeInteger);
        mret ()
   else mret ());;
  (* store name *)
  store_var_name name col.

(** The arguments of the [Highs_addRow] call of [add_constr]. *)
Record RowArgs := {
  arg_lower : float;
  arg_upper : float;
  arg_num_new_nz : Z;
  arg_index : list Highs.HighsInt;
  arg_value : list float }.

(** What [add_constr] computes between reading [num_rows()] and calling
    [Highs_addRow]: the bounds, the number of entries and the two arrays. *)
Definition add_constr_args (lin_expr : mip.LinExpr) : outcome RowArgs :=
  (* equation expressed as two-sided inequality *)
  let lower := (- mip.const lin_expr)%float in
  let upper := (- mip.const lin_expr)%float in
  '(lower, upper) ←
    (if bool_decide (mip.sense lin_expr = mip.LESS_OR_EQUAL)
     then Returned ((- mip.INF)%float, upper)
     else if bool_decide (mip.sense lin_expr = mip.GREATER_OR_EQUAL)
     then Returned (lower, mip.INF)
     else if bool_decide (mip.sense lin_expr = mip.EQUAL)
     then Returned (lower, upper)
     else Raised AssertionError);
  let num_new_nz := Z.of_nat (size (mip.expr lin_expr)) in
  index ← new_int_array (map (λ item, mip.idx item.1) (mip.items (mip.expr lin_expr)));
  let value := map (λ item, item.2) (mip.items (mip.expr lin_expr)) in
  (* [num_new_nz] is converted when the call is made *)
  num_new_nz ← to_int num_new_nz;
  Returned {| arg_lower := lower; arg_upper := upper; arg_num_new_nz := num_new_nz;
              arg_index := index; arg_value := value |}.

Definition add_constr (lin_expr : mip.LinExpr) (name : string) : M unit :=
  row ← num_rows;
  args ← lift (add_constr_args lin_expr);
  status ← call_lib (λ lib,
    Highs.Highs_addRow lib (arg_lower args) (arg_upper args) (arg_num_new_nz args)
      (arg_index args) (arg_value args));
  (* store name *)
  store_cons_name name row.

Definition add_lazy_constr (lin_expr : mip.LinExpr) : M unit :=
  raise (NotImplementedError "").

Definition add_sos (sos : list (mip.Var * float)) (sos_type : Z) : M unit :=
  raise (NotImplementedError "").

Definition add_cut (lin_expr : mip.LinExpr) : M unit :=
  raise (NotImplementedError "").

Definition get_objective_const : M float :=
  '(status, offset) ← query Highs.Highs_getObjectiveOffset;
  mret offset.

Definition get_objective_sense : M string :=
  '(status, sense) ← query Highs.Highs_getObjectiveSense;
  let sense_map : gmap Z string :=
    {[ Highs.kHighsObjSenseMaximize := mip.MAXIMIZE;
       Highs.kHighsObjSenseMinimize := mip.MINIMIZE ]} in
  match sense_map !! sense with
  | Some s => mret s
  | None => raise KeyError
  end.

Definition set_objective_sense (sense : string) : M unit :=
  let sense_map : gmap string Z :=
    {[ mip.MAXIMIZE := Highs.kHighsObjSenseMaximize;
       mip.MINIMIZE := Highs.kHighsObjSenseMinimize ]} in
  match sense_map !! sense with
  | Some native => status ← call (Highs.Highs_changeObjectiveSense native); mret ()
  | None => raise KeyError
  end.

Definition set_objective_const (const : float) : M unit :=
  status ← call (Highs.Highs_changeObjectiveOffset const);
  mret ().

(** [self.model.vars[i]] *)
Definition model_vars (i : Z) : M mip.Var := λ self,
  match py_getitem (mip.vars (model self)) i with
  | Some v => (Returned v, self)
  | None => (Raised IndexError, self)
  end.

Definition get_objective : M mip.LinExpr :=
  n ← num_cols;
  let num_col := 0 in
  let costs := replicate (Z.to_nat n) 0%float in
  let lower := replicate (Z.to_nat n) 0%float in
  let upper := replicate (Z.to_nat n) 0%float in
  let num_nz := 0 in
  '(status, out) ←
    query (Highs.Highs_getColsByRange 0 (n - 1) num_col costs lower upper num_nz);
  let costs := Highs.out_costs out in
  terms ← collect (range n) (λ i,
    match costs !! Z.to_nat i with
    | Some c =>
        if float_ne c 0%float
        then var ← model_vars i; mret (Some (var, c))
        else mret None
    | None => raise IndexError
    end);
  let obj_expr := mip.xsum terms in
  c ← get_objective_const;
  let obj_expr := mip.add_const obj_expr c in
  s ← get_objective_sense;
  let obj_expr := mip.set_sense obj_expr s in
  mret obj_expr.

Definition relax : M unit :=
  (* change integrality of all columns *)
  n ← num_cols;
  let integrality := map (λ i, Highs.kHighsVarTypeContinuous) (range n) in
  status ← call (Highs.Highs_changeColsIntegralityByRange 0 (n - 1) integrality);
  mret ().

(** The [sense] argument is never read by the method: the sense set is the
    expression's. *)
Definition set_objective (lin_expr : mip.LinExpr) (sense : string) : M unit :=
  (* set coefficients *)
  for_each (mip.items (mip.expr lin_expr)) (λ item,
    col ← lift (to_int (mip.idx item.1));
    status ← call (Highs.Highs_changeColCost col item.2);
    mret ());;
  set_objective_const (mip.const lin_expr);;
  set_objective_sense (mip.sense lin_expr).

Definition var_get_name (idx : Z) : M string := λ self,
  match py_getitem (_var_name self) idx with
  | Some name => (Returned name, self)
  | None => (Raised IndexError, self)
  end.


(** ** Construction *)

Definition not_found_message : string :=
  "HiGHS not found." +:+
  "Please install the `highspy` package, or" +:+
  "set the `PMIP_HIGHS_LIBRARY` environment variable.".

(** The module's globals once its top-level code has run: [highslib] is bound
    only when a library was loaded. *)
Record Globals := {
  has_highs : bool;
  highslib : option Highs.Lib }.

(** [SolverHighs(model, name, sense)], given the module's globals.  An
    exception raised inside [__init__] leaves the caller without an object. *)
Definition __init__ (g : Globals) (model : mip.Model) (name sense : string)
  : outcome SolverHighs :=
  if negb (has_highs g)
  then Raised (FileNotFoundError not_found_message)
  else
    match highslib g with
    | None => Raised NameError
    | Some highslib =>
        (* Model creation and initialization. *)
        let self := {| _lib := highslib;
                       model := model; _model := Highs.Highs_create; _name := "";
                       _var_name := []; _var_col := ∅;
                       _cons_name := []; _cons_col := ∅ |} in
        match set_objective_sense sense self with
        | (Raised e, _) => Raised e
        | (Returned _, self) =>
            Returned {| _lib := _lib self;
                        model := model; _model := _model self; _name := name;
                        _var_name := []; _var_col := ∅;
                        _cons_name := []; _cons_col := ∅ |}
        end
    end.

(** ** The library resolver *)

(** The strings of the resolver: [str.lower], [in], [os.path.dirname] and
    [os.path.join] on POSIX paths. *)
Definition lower_ascii (c : ascii) : ascii :=
  let n := N_of_ascii c in
  if ((65 <=? n) && (n <=? 90))%N then ascii_of_N (n + 32) else c.

Definition lower (s : string) : string :=
  string_of_list_ascii (map lower_ascii (list_ascii_of_string s)).

Definition contains (sub s : string) : bool :=
  match String.index 0 sub s with Some _ => true | None => false end.

Definition is_slash (c : ascii) : bool := Ascii.eqb c "/"%char.

Fixpoint drop_while {A} (p : A → bool) (l : list A) : list A :=
  match l with
  | [] => []
  | x :: l' => if p x then drop_while p l' else l
  end.

Definition dirname (p : string) : string :=
  let head := drop_while (λ c, negb (is_slash c)) (rev (list_ascii_of_string p)) in
  let head :=
    if forallb is_slash head then head else drop_while is_slash head in
  string_of_list_ascii (rev head).

Definition path_join (a b : string) : string :=
  if String.prefix "/" b then b
  else if bool_decide (a = "") || String.prefix "/" (string_of_list_ascii (rev (list_ascii_of_string a)))
  then a +:+ b
  else a +:+ "/" +:+ b.

(** What the module reads of its surroundings when it is imported. *)
Record Environment := {
  os_environ : gmap string string;
  (** [highspy.__file__], or [None] when the package cannot be imported *)
  highspy_file : option string;
  sys_platform : string;
  glob_glob : string → list string;
  (** the library that [ffi.dlopen] loads from the file, or [None] when it
      raises *)
  ffi_dlopen : string → option Highs.Lib }.

Definition ENV_KEY : string := "PMIP_HIGHS_LIBRARY".

(** The body of the module's [try]: it gives the library that was loaded. *)
Definition try_loading (env : Environment) : outcome Highs.Lib :=
  libfile ←
    (* first try user-defined path, if given *)
    match os_environ env !! ENV_KEY with
    | Some libfile => Returned libfile
    | None =>
        (* try library shipped with highspy packaged *)
        match highspy_file env with
        | None => Raised (ModuleNotFoundError "No module named 'highspy'")
        | Some file =>
            let pkg_path := dirname file in
            (* need library matching operating system *)
            pattern ←
              (if contains "linux" (lower (sys_platform env))
               then Returned "highs_bindings.*.so"
               else Raised (NotImplementedError (sys_platform env +:+ " not supported!")));
            (* there should only be one match *)
            match glob_glob env (path_join pkg_path pattern) with
            | [libfile] => Returned libfile
            | _ => Raised (ValueError "")
            end
        end
    end;
  match ffi_dlopen env libfile with
  | Some highslib => Returned highslib
  | None => Raised (OSError ("cannot load library '" +:+ libfile +:+ "'"))
  end.

(** Importing the module: the [try] with its [except Exception] handler. *)
Definition import_module (env : Environment) : outcome Globals :=
  match try_loading env with
  | Returned highslib => Returned {| has_highs := true; highslib := Some highslib |}
  | Raised e =>
      if isinstance_Exception e
      then Returned {| has_highs := false; highslib := None |}
      else Raised e
  end.

(** [SolverHighs(model, name, sense)] in a program that imports the module. *)
Definition construct (env : Environment) (model : mip.Model) (name sense : string)
  : outcome SolverHighs :=
  g ← import_module env;
  __init__ g model name sense.


(** ** Sequences of additions, and the properties stated of the adapter *)

Record VarArgs := {
  va_obj : float;
  va_lb : float;
  va_ub : float;
  va_var_type : string;
  va_name : string }.

Inductive addition :=
| AddVar (a : VarArgs)
| AddConstr (lin_expr : mip.LinExpr) (name : string).

Definition perform (a : addition) : M unit :=
  match a with
  | AddVar a => add_var (va_obj a) (va_lb a) (va_ub a) (va_var_type a) (va_name a)
  | AddConstr lin_expr name => add_constr lin_expr name
  end.

(** The adapter object after a sequence of additions.  A call that raises
    leaves the object as it was when the exception left the method. *)
Definition after (calls : list addition) (self : SolverHighs) : SolverHighs :=
  fold_left (λ s a, (perform a s).2) calls self.


(** The indices of the variables of an expression are all C [int]s. *)
Definition int_indices (lin_expr : mip.LinExpr) : bool :=
  forallb Highs.is_int (map (λ item, mip.idx item.1) (mip.items (mip.expr lin_expr))).

(** The integers that [add_constr] passes to the library are C [int]s: the
    indices of the variables and the number of entries. *)
Definition int_row (lin_expr : mip.LinExpr) : bool :=
  int_indices lin_expr && Highs.is_int (Z.of_nat (size (mip.expr lin_expr))).

(** [add_constr] sends the bounds [lower] and [upper] to [Highs_addRow]: when
    the integers it passes are C [int]s it is the call of [Highs_addRow] with
    these bounds, on the arguments that the method has computed, followed by
    the storing of the name; otherwise it raises [OverflowError] before the
    library is entered, and the adapter is as it was. *)
Definition row_sent (lin_expr : mip.LinExpr) (name : string) (self : SolverHighs)
    (lower upper : float) : Prop :=
  (int_row lin_expr = true →
   ∃ args,
     add_constr_args lin_expr = Returned args ∧
     arg_lower args = lower ∧ arg_upper args = upper ∧
     add_constr lin_expr name self =
     store_cons_name name (Highs.Highs_getNumRow (_model self))
       (with_model self
          (Highs.Highs_addRow (_lib self) lower upper (arg_num_new_nz args)
             (arg_index args) (arg_value args) (_model self)).2)) ∧
  (int_row lin_expr = false →
   add_constr lin_expr name self = (Raised OverflowError, self)).




(** Two floats are the same number: identical, or equal for [==]. *)
Definition float_same (x y : float) : Prop :=
  x = y ∨ PrimFloat.eqb x y = true.

Definition nonzero_coefficient (item : mip.Var * float) : Prop :=
  float_ne item.2 0%float = true.

#[export] Instance nonzero_coefficient_dec item : Decision (nonzero_coefficient item).
Proof. unfold nonzero_coefficient. apply _. Defined.

(** Setting [lin_expr] as the objective and reading the objective back gives
    the nonzero coefficients of [lin_expr], its constant and its sense. *)
Definition objective_round_trip (self : SolverHighs) (lin_expr : mip.LinExpr)
    (sense : string) : Prop :=
  ∃ r self',
    (set_objective lin_expr sense;; get_objective) self = (Returned r, self') ∧
    mip.expr r = filter nonzero_coefficient (mip.expr lin_expr) ∧
    float_same (mip.const r) (mip.const lin_expr) ∧
    mip.sense r = mip.sense lin_expr.


(** The native model after the cost updates of [set_objective]'s loop. *)
Definition set_costs (l : list (mip.Var * float)) (h : Highs.t) : Highs.t :=
  fold_left (λ h item, (Highs.Highs_changeColCost (mip.idx item.1) item.2 h).2) l h.

(** The items that the loop of [set_objective] comes to write: those before
    the first item whose variable's index is no C [int]. *)
Fixpoint written (l : list (mip.Var * float)) : list (mip.Var * float) :=
  match l with
  | [] => []
  | item :: l' => if Highs.is_int (mip.idx item.1) then item :: written l' else []
  end.

(** The column that [add_var] leaves in the native model, for the bounds
    that the library stores. *)
Definition new_col (obj lb ub : float) (var_type : string) : Highs.Col :=
  {| Highs.col_cost := obj; Highs.col_lower := lb; Highs.col_upper := ub;
     Highs.col_integrality :=
       if bool_decide (var_type ≠ mip.CONTINUOUS)
       then Highs.kHighsVarTypeInteger else Highs.kHighsVarTypeContinuous |}.

(** The terms that the generator of [get_objective] yields for the columns
    [ixs], when the front end's variable of column [i] has index [i]. *)
Definition cost_terms (costs : list float) (ixs : list Z) : list (mip.Var * float) :=
  omap (λ i, match costs !! Z.to_nat i with
             | Some c => if float_ne c 0%float
                         then Some ({| mip.idx := i |}, c) else None
             | None => None
             end) ixs.

(** The front end's variable list lines up with the native columns: the
    variable at position [j] has index [j]. *)
Definition vars_are_columns (self : SolverHighs) : Prop :=
  ∀ j : nat, (j < length (Highs.cols (_model self)))%nat →
    mip.vars (model self) !! j = Some {| mip.idx := Z.of_nat j |}.

(** Every variable of the expression is a column of the native model, its
    index a C [int] as the indices of columns are. *)
Definition over_columns (lin_expr : mip.LinExpr) (self : SolverHighs) : Prop :=
  ∀ v c, mip.expr lin_expr !! v = Some c →
    0 ≤ mip.idx v < Z.of_nat (length (Highs.cols (_model self))) ∧
    Highs.is_int (mip.idx v) = true.

(** Every column whose variable the expression does not mention costs zero. *)
Definition other_costs_zero (lin_expr : mip.LinExpr) (self : SolverHighs) : Prop :=
  ∀ (j : nat) col, Highs.cols (_model self) !! j = Some col →
    mip.expr lin_expr !! {| mip.idx := Z.of_nat j |} = None →
    float_ne (Highs.col_cost col) 0%float = false.

(** ** Concrete inputs *)

(** A library that refuses a column or a row whose lower bound is plus
    infinity or whose upper bound is minus infinity, stores the bounds it is
    given and the entries of a row that are not zero, and has no info value. *)
Definition sample_library : Highs.Lib :=
  {| Highs.new_col_bounds := λ _ lo up,
       if PrimFloat.eqb lo infinity || PrimFloat.eqb up neg_infinity
       then None else Some (lo, up);
     Highs.new_row := λ _ lo up index value,
       if PrimFloat.eqb lo infinity || PrimFloat.eqb up neg_infinity
       then None
       else Some {| Highs.row_lower := lo; Highs.row_upper := up;
                    Highs.row_index :=
                      (filter (λ p, float_ne p.2 0%float = true) (zip index value)).*1;
                    Highs.row_value :=
                      (filter (λ p, float_ne p.2 0%float = true) (zip index value)).*2 |};
     Highs.double_info := λ _ _, None;
     Highs.int_info := λ _ _, None |}.

(** No override variable, no [highspy] package. *)
Definition bare_environment : Environment :=
  {| os_environ := ∅; highspy_file := None; sys_platform := "linux";
     glob_glob := λ _, []; ffi_dlopen := λ _, None |}.

(** The module's globals with [sample_library] loaded. *)
Definition loaded : Globals :=
  {| has_highs := true; highslib := Some sample_library |}.

Definition x0 : mip.Var := {| mip.idx := 0 |}.
Definition x1 : mip.Var := {| mip.idx := 1 |}.

Definition two_var_model : mip.Model := {| mip.vars := [x0; x1] |}.

(** A new adapter for [two_var_model], minimizing. *)
Definition new_adapter : SolverHighs :=
  {| _lib := sample_library;
     model := two_var_model;
     _model := Highs.Highs_create;
     _name := "m"; _var_name := []; _var_col := ∅;
     _cons_name := []; _cons_col := ∅ |}.

Definition var_x : VarArgs :=
  {| va_obj := 2; va_lb := 0; va_ub := mip.INF;
     va_var_type := mip.CONTINUOUS; va_name := "x" |}.

Definition var_y : VarArgs :=
  {| va_obj := 3; va_lb := 0; va_ub := mip.INF;
     va_var_type := mip.INTEGER; va_name := "y" |}.


(** [x0 + x1 <= 10] *)
Definition sum_at_most_ten : mip.LinExpr :=
  {| mip.expr := {[ x0 := 1%float; x1 := 1%float ]};
     mip.const := (-10)%float; mip.sense := mip.LESS_OR_EQUAL |}.

(** The adapter of the scenario: two variables with costs 2 and 3, one row. *)
Definition scenario : SolverHighs :=
  after [AddVar var_x; AddVar var_y; AddConstr sum_at_most_ten "c"] new_adapter.

(** An objective that mentions no variable. *)
Definition constant_objective : mip.LinExpr :=
  {| mip.expr := ∅; mip.const := 0%float; mip.sense := mip.MINIMIZE |}.

(** An objective on [x1] alone. *)
Definition objective_on_x1 : mip.LinExpr :=
  {| mip.expr := {[ x1 := 5%float ]}; mip.const := 7%float;
     mip.sense := mip.MAXIMIZE |}.

(** An objective on both variables of the scenario, one coefficient zero. *)
Definition objective_on_both : mip.LinExpr :=
  {| mip.expr := {[ x0 := 4%float; x1 := 0%float ]}; mip.const := 7%float;
     mip.sense := mip.MAXIMIZE |}.

(** ** The remaining methods of [SolverHighs] *)

Definition get_problem_name : M string := λ self, (Returned (_name self), self).

Definition set_problem_name (name : string) : M unit := λ self,
  (Returned (),
   {| _lib := _lib self; model := model self; _model := _model self; _name := name;
      _var_name := _var_name self; _var_col := _var_col self;
      _cons_name := _cons_name self; _cons_col := _cons_col self |}).
















(** ** More concrete inputs *)

(** The override variable names a library; no package, another platform. *)
Definition override_environment : Environment :=
  {| os_environ := {[ ENV_KEY := "/opt/highs/libhighs.so" ]};
     highspy_file := None; sys_platform := "darwin";
     glob_glob := λ _, [];
     ffi_dlopen := λ f, if bool_decide (f = "/opt/highs/libhighs.so")
                        then Some sample_library else None |}.

(** The [highspy] package ships one library for Linux. *)
Definition packaged_environment : Environment :=
  {| os_environ := ∅;
     highspy_file := Some "/site/highspy/__init__.py";
     sys_platform := "linux";
     glob_glob := λ p, if bool_decide (p = "/site/highspy/highs_bindings.*.so")
                       then ["/site/highspy/highs_bindings.cpython-311.so"]
                       else [];
     ffi_dlopen := λ _, Some sample_library |}.

(** An objective on a variable whose index is no C [int]. *)
Definition objective_on_far_variable : mip.LinExpr :=
  {| mip.expr := {[ {| mip.idx := 2147483648 |} := 5%float ]};
     mip.const := 7%float; mip.sense := mip.MAXIMIZE |}.

(** [x0 >= 1], with its sense left at the default of [LinExpr]. *)
Definition no_sense_objective : mip.LinExpr :=
  {| mip.expr := {[ x0 := 9%float ]}; mip.const := 1%float; mip.sense := "" |}.

(** * Properties *)

Ltac run :=
  repeat (unfold mbind, M_bind, mret, M_ret, call, query, call_lib, query_lib,
            lift, raise, outcome_bind, outcome_ret; simpl).

(** ** Unsupported operations *)

(** C9: [add_lazy_constr], [add_sos] and [add_cut] raise [NotImplementedError]
    at once, whatever their arguments and the adapter, and leave the adapter
    and its native model as they were. *)
Theorem unsupported_operations_raise
    (lin_expr : mip.LinExpr) (sos : list (mip.Var * float)) (sos_type : Z)
    (self : SolverHighs) :
  add_lazy_constr lin_expr self = (Raised (NotImplementedError ""), self) ∧
  add_sos sos sos_type self = (Raised (NotImplementedError ""), self) ∧
  add_cut lin_expr self = (Raised (NotImplementedError ""), self).
Proof. repeat split. Qed.

(** ** Objective sense *)

Lemma set_objective_sense_min self :
  set_objective_sense mip.MINIMIZE self =
  (Returned (),
   with_model self
     (Highs.Highs_changeObjectiveSense Highs.kHighsObjSenseMinimize (_model self)).2).
Proof. reflexivity. Qed.

Lemma set_objective_sense_max self :
  set_objective_sense mip.MAXIMIZE self =
  (Returned (),
   with_model self
     (Highs.Highs_changeObjectiveSense Highs.kHighsObjSenseMaximize (_model self)).2).
Proof. reflexivity. Qed.

(** C6: after [set_objective_sense(MINIMIZE)] the native sense is 1 and
    [get_objective_sense] returns [MINIMIZE]; after
    [set_objective_sense(MAXIMIZE)] the native sense is -1 and
    [get_objective_sense] returns [MAXIMIZE]. *)
Theorem objective_sense_round_trip (self : SolverHighs) :
  (∃ self',
     set_objective_sense mip.MINIMIZE self = (Returned (), self') ∧
     Highs.obj_sense (_model self') = 1 ∧
     get_objective_sense self' = (Returned mip.MINIMIZE, self')) ∧
  (∃ self',
     set_objective_sense mip.MAXIMIZE self = (Returned (), self') ∧
     Highs.obj_sense (_model self') = -1 ∧
     get_objective_sense self' = (Returned mip.MAXIMIZE, self')).
Proof.
  split; eexists; (split; [reflexivity | split; reflexivity]).
Qed.

(** ** Row bounds *)

Lemma call_lib_eq {A} (f : Highs.Lib → Highs.t → A * Highs.t) self :
  call_lib f self =
  (Returned (f (_lib self) (_model self)).1,
   with_model self (f (_lib self) (_model self)).2).
Proof. unfold call_lib. destruct (f (_lib self) (_model self)); reflexivity. Qed.

(** [add_constr] is its argument computation, then the native call, then the
    storing of the name. *)
Lemma add_constr_eq lin_expr name self :
  add_constr lin_expr name self =
  match add_constr_args lin_expr with
  | Returned args =>
      store_cons_name name (Highs.Highs_getNumRow (_model self))
        (with_model self
           (Highs.Highs_addRow (_lib self) (arg_lower args) (arg_upper args)
              (arg_num_new_nz args) (arg_index args) (arg_value args)
              (_model self)).2)
  | Raised e => (Raised e, self)
  end.
Proof.
  unfold add_constr, num_rows, query, lift. unfold mbind at 1 2 3, M_bind. simpl.
  destruct (add_constr_args lin_expr) as [args|e]; [|reflexivity].
  rewrite call_lib_eq. reflexivity.
Qed.

(** The arguments of the native call of [add_constr], for a sense among
    [<], [>] and [=] and integers that are C [int]s. *)
Lemma add_constr_args_returns lin_expr :
  mip.sense lin_expr = mip.LESS_OR_EQUAL ∨
  mip.sense lin_expr = mip.GREATER_OR_EQUAL ∨
  mip.sense lin_expr = mip.EQUAL →
  int_row lin_expr = true →
  add_constr_args lin_expr =
  Returned
    {| arg_lower := if bool_decide (mip.sense lin_expr = mip.LESS_OR_EQUAL)
                    then neg_infinity else (- mip.const lin_expr)%float;
       arg_upper := if bool_decide (mip.sense lin_expr = mip.GREATER_OR_EQUAL)
                    then infinity else (- mip.const lin_expr)%float;
       arg_num_new_nz := Z.of_nat (size (mip.expr lin_expr));
       arg_index := map (λ item, mip.idx item.1) (mip.items (mip.expr lin_expr));
       arg_value := map (λ item, item.2) (mip.items (mip.expr lin_expr)) |}.
Proof.
  intros Hsense Hint. apply andb_true_iff in Hint as [Hix Hnz].
  unfold add_constr_args, new_int_array, to_int. unfold int_indices in Hix.
  rewrite Hix, Hnz.
  destruct Hsense as [-> | [-> | ->]]; reflexivity.
Qed.

(** An integer that is no C [int] stops [add_constr] before the library is
    entered, for a sense among [<], [>] and [=]. *)
Lemma add_constr_args_overflow lin_expr :
  mip.sense lin_expr = mip.LESS_OR_EQUAL ∨
  mip.sense lin_expr = mip.GREATER_OR_EQUAL ∨
  mip.sense lin_expr = mip.EQUAL →
  int_row lin_expr = false →
  add_constr_args lin_expr = Raised OverflowError.
Proof.
  intros Hsense Hint. apply andb_false_iff in Hint.
  unfold add_constr_args, new_int_array, to_int. unfold int_indices in Hint.
  destruct (forallb Highs.is_int _);
    [destruct Hint as [Hix | ->]; [discriminate Hix|] |];
    destruct Hsense as [-> | [-> | ->]]; reflexivity.
Qed.

(** C2: the bounds that [add_constr] sends to [Highs_addRow] are both the
    negated constant for an equality, minus infinity and the negated constant
    for a less-or-equal, and the negated constant and plus infinity for a
    greater-or-equal; the call is made for every expression whose variables'
    indices and number of entries are C [int]s, and for the others
    [OverflowError] is raised before any native call. *)
Theorem add_constr_row_bounds
    (e : gmap mip.Var float) (c : float) (name : string) (self : SolverHighs) :
  row_sent {| mip.expr := e; mip.const := c; mip.sense := mip.EQUAL |} name self
           (- c)%float (- c)%float ∧
  row_sent {| mip.expr := e; mip.const := c; mip.sense := mip.LESS_OR_EQUAL |} name self
           neg_infinity (- c)%float ∧
  row_sent {| mip.expr := e; mip.const := c; mip.sense := mip.GREATER_OR_EQUAL |} name self
           (- c)%float infinity.
Proof.
  repeat split; intros Hint; rewrite add_constr_eq.
  all: try (rewrite add_constr_args_overflow by (simpl; auto); reflexivity).
  all: rewrite add_constr_args_returns by (simpl; auto);
    eexists; (split; [reflexivity|]); simpl; repeat split.
Qed.

(** ** Construction without the native library *)

Lemma import_module_returns (env : Environment) :
  ∃ g, import_module env = Returned g.
Proof.
  unfold import_module. destruct (try_loading env); simpl; eauto.
Qed.

Lemma import_module_has_highs (env : Environment) (g : Globals) :
  import_module env = Returned g →
  has_highs g = true ↔ ∃ lib, try_loading env = Returned lib.
Proof.
  unfold import_module. destruct (try_loading env) as [f|e]; simpl;
    intros [= <-]; simpl; split; eauto; try discriminate.
  intros [? [=]].
Qed.

(** C5: when the body of the module's [try] raises (the library is neither
    found nor loaded), importing the module still returns, with [has_highs]
    false; constructing the adapter then raises [FileNotFoundError], whose
    message names the [highspy] package and the [PMIP_HIGHS_LIBRARY] variable,
    and gives the caller no object. *)
Theorem construct_without_library
    (env : Environment) (model : mip.Model) (name sense : string) (e : exn) :
  try_loading env = Raised e →
  import_module env = Returned {| has_highs := false; highslib := None |} ∧
  construct env model name sense = Raised (FileNotFoundError not_found_message) ∧
  contains "install the `highspy` package" not_found_message = true ∧
  contains "set the `PMIP_HIGHS_LIBRARY` environment variable" not_found_message = true.
Proof.
  intros Hload.
  assert (Himp : import_module env = Returned {| has_highs := false; highslib := None |}).
  { unfold import_module. rewrite Hload. reflexivity. }
  split; [exact Himp|].
  split; [|split; reflexivity].
  unfold construct. rewrite Himp. reflexivity.
Qed.

Lemma construct_without_library_witness :
  try_loading bare_environment = Raised (ModuleNotFoundError "No module named 'highspy'") ∧
  construct bare_environment two_var_model "m" mip.MINIMIZE =
    Raised (FileNotFoundError not_found_message).
Proof.
  split; [reflexivity|].
  apply (construct_without_library bare_environment two_var_model "m" mip.MINIMIZE
           (ModuleNotFoundError "No module named 'highspy'")).
  reflexivity.
Defined.

(** ** The native calls of [add_var] *)

Section AddVar.

Local Abbreviation cols := Highs.cols.

Lemma with_model_same self : with_model self (_model self) = self.
Proof. destruct self; reflexivity. Qed.

Lemma set_cols_same h : Highs.set_cols h (cols h) = h.
Proof. destruct h; reflexivity. Qed.








End AddVar.


(** ** Duplicate names *)


Lemma py_getitem_nat {A} (l : list A) (k : nat) :
  py_getitem l (Z.of_nat k) = l !! k.
Proof.
  unfold py_getitem. destruct (decide (0 ≤ Z.of_nat k)) as [_|Hneg]; [|lia].
  rewrite Nat2Z.id. reflexivity.
Qed.





(** ** Registry lengths *)

(** [Highs_addRow] either appends one row and reports [kHighsStatusOk], or
    changes nothing and reports an error. *)
Lemma addRow_cases lib lower upper num_new_nz index value h :
  ((Highs.Highs_addRow lib lower upper num_new_nz index value h).1 = Highs.kHighsStatusOk ∧
   ∃ row,
     (Highs.Highs_addRow lib lower upper num_new_nz index value h).2 =
     {| Highs.cols := Highs.cols h; Highs.rows := Highs.rows h ++ [row];
        Highs.offset := Highs.offset h; Highs.obj_sense := Highs.obj_sense h |}) ∨
  ((Highs.Highs_addRow lib lower upper num_new_nz index value h).1 =
     Highs.kHighsStatusError ∧
   (Highs.Highs_addRow lib lower upper num_new_nz index value h).2 = h).
Proof.
  unfold Highs.Highs_addRow.
  destruct (forallb _ _); [|right; split; reflexivity].
  destruct (Highs.new_row _ _ _ _ _ _) as [row|]; [|right; split; reflexivity].
  left. split; [reflexivity|]. exists row. reflexivity.
Qed.




Lemma set_objective_sense_cases sense self :
  (sense = mip.MAXIMIZE ∧
   set_objective_sense sense self =
   (Returned (),
    with_model self
      (Highs.Highs_changeObjectiveSense Highs.kHighsObjSenseMaximize (_model self)).2)) ∨
  (sense = mip.MINIMIZE ∧
   set_objective_sense sense self =
   (Returned (),
    with_model self
      (Highs.Highs_changeObjectiveSense Highs.kHighsObjSenseMinimize (_model self)).2)) ∨
  (sense ≠ mip.MAXIMIZE ∧ sense ≠ mip.MINIMIZE ∧
   set_objective_sense sense self = (Raised KeyError, self)).
Proof.
  destruct (decide (sense = mip.MAXIMIZE)) as [-> | Hmax]; [left; split; reflexivity|].
  destruct (decide (sense = mip.MINIMIZE)) as [-> | Hmin];
    [right; left; split; reflexivity|].
  right; right. split; [exact Hmax|]. split; [exact Hmin|].
  unfold set_objective_sense.
  rewrite lookup_insert_ne, lookup_singleton_ne by congruence. reflexivity.
Qed.

(** What a successful construction hands to the caller: the loaded library,
    empty registries, an empty native model with the sense that was asked,
    and the name. *)
Lemma init_returns g m name sense self :
  __init__ g m name sense = Returned self →
  has_highs g = true ∧ highslib g = Some (_lib self) ∧
  (sense = mip.MINIMIZE ∨ sense = mip.MAXIMIZE) ∧
  self =
  {| _lib := _lib self; model := m;
     _model := {| Highs.cols := []; Highs.rows := []; Highs.offset := 0%float;
                  Highs.obj_sense := if decide (sense = mip.MINIMIZE)
                                     then Highs.kHighsObjSenseMinimize
                                     else Highs.kHighsObjSenseMaximize |};
     _name := name; _var_name := []; _var_col := ∅;
     _cons_name := []; _cons_col := ∅ |}.
Proof.
  unfold __init__. destruct (has_highs g); simpl; [|discriminate].
  destruct (highslib g) as [lib|]; [|discriminate].
  match goal with |- context [set_objective_sense sense ?s] =>
    destruct (set_objective_sense_cases sense s) as
      [[-> ->] | [[-> ->] | (Hmax & Hmin & ->)]] end; simpl;
    [| | discriminate]; intros [= <-]; simpl; repeat split; auto.
Qed.




(** ** Names and insertion order *)









(** ** The frame of [set_objective] *)

Lemma call_eq {A} (f : Highs.t → A * Highs.t) self :
  call f self = (Returned (f (_model self)).1, with_model self (f (_model self)).2).
Proof. unfold call. destruct (f (_model self)); reflexivity. Qed.

Lemma written_all (l : list (mip.Var * float)) :
  forallb (λ item, Highs.is_int (mip.idx item.1)) l = true → written l = l.
Proof.
  induction l as [|item l IH]; simpl; [reflexivity|].
  destruct (Highs.is_int (mip.idx item.1)); simpl; [|discriminate].
  intros Hl. rewrite (IH Hl). reflexivity.
Qed.

Lemma written_sub (l : list (mip.Var * float)) item :
  item ∈ written l → item ∈ l.
Proof.
  induction l as [|it l IH]; simpl; [intros H; exact H|].
  destruct (Highs.is_int (mip.idx it.1)); [|intros H; apply elem_of_nil in H; contradiction].
  intros H. apply elem_of_cons in H as [-> | H];
    [apply list_elem_of_here | apply list_elem_of_further, IH, H].
Qed.

Lemma int_indices_items lin_expr :
  int_indices lin_expr =
  forallb (λ item, Highs.is_int (mip.idx item.1)) (mip.items (mip.expr lin_expr)).
Proof.
  unfold int_indices. induction (mip.items (mip.expr lin_expr)) as [|item l IH];
    simpl; [reflexivity | rewrite IH; reflexivity].
Qed.

(** The loop of [set_objective] writes the costs of the items it comes to,
    and raises [OverflowError] at the first index that is no C [int]. *)
Lemma for_each_set_costs (l : list (mip.Var * float)) self :
  for_each l (λ item,
    col ← lift (to_int (mip.idx item.1));
    status ← call (Highs.Highs_changeColCost col item.2);
    mret ()) self =
  (if forallb (λ item, Highs.is_int (mip.idx item.1)) l
   then Returned () else Raised OverflowError,
   with_model self (set_costs (written l) (_model self))).
Proof.
  match goal with |- for_each l ?f self = _ => set (body := f) end.
  assert (Hstep : ∀ item s,
    body item s =
    if Highs.is_int (mip.idx item.1)
    then (Returned (),
          with_model s (Highs.Highs_changeColCost (mip.idx item.1) item.2 (_model s)).2)
    else (Raised OverflowError, s)).
  { intros item s. unfold body, lift, to_int. unfold mbind, M_bind, mret, M_ret.
    destruct (Highs.is_int (mip.idx item.1)); [rewrite call_eq|]; reflexivity. }
  clearbody body. revert self.
  induction l as [|item l IH]; intros self; cbn [for_each forallb written].
  - rewrite with_model_same. reflexivity.
  - unfold mbind, M_bind. rewrite Hstep.
    destruct (Highs.is_int (mip.idx item.1)); simpl.
    + rewrite IH. reflexivity.
    + rewrite with_model_same. reflexivity.
Qed.

(** [set_objective] raises [OverflowError] from its loop when an index is no
    C [int]; otherwise it returns when the expression's sense is in the table
    and raises [KeyError] when it is not, the costs and the offset written
    either way. *)
Lemma set_objective_eq lin_expr sense self :
  let h := (Highs.Highs_changeObjectiveOffset (mip.const lin_expr)
              (set_costs (mip.items (mip.expr lin_expr)) (_model self))).2 in
  set_objective lin_expr sense self =
  if int_indices lin_expr
  then
    if bool_decide (mip.sense lin_expr = mip.MAXIMIZE)
    then (Returned (),
          with_model self
            (Highs.Highs_changeObjectiveSense Highs.kHighsObjSenseMaximize h).2)
    else if bool_decide (mip.sense lin_expr = mip.MINIMIZE)
    then (Returned (),
          with_model self
            (Highs.Highs_changeObjectiveSense Highs.kHighsObjSenseMinimize h).2)
    else (Raised KeyError, with_model self h)
  else (Raised OverflowError,
        with_model self
          (set_costs (written (mip.items (mip.expr lin_expr))) (_model self))).
Proof.
  unfold set_objective. unfold mbind at 1 2, M_bind.
  rewrite for_each_set_costs, int_indices_items.
  destruct (forallb _ _) eqn:Hint; [|reflexivity].
  rewrite (written_all _ Hint).
  unfold set_objective_const, set_objective_sense. run.
  case_bool_decide as Hmax.
  - rewrite Hmax. reflexivity.
  - case_bool_decide as Hmin.
    + rewrite Hmin. reflexivity.
    + rewrite lookup_insert_ne by (intros Heq; apply Hmax; symmetry; exact Heq).
      rewrite lookup_singleton_ne by (intros Heq; apply Hmin; symmetry; exact Heq).
      reflexivity.
Qed.

Lemma changeColCost_other col cost h (j : nat) :
  col ≠ Z.of_nat j →
  Highs.cols (Highs.Highs_changeColCost col cost h).2 !! j = Highs.cols h !! j.
Proof.
  intros Hne. unfold Highs.Highs_changeColCost, Highs.in_cols.
  case_bool_decide as Hin; simpl; [|reflexivity].
  apply list_lookup_alter_ne. lia.
Qed.

Lemma set_costs_other (l : list (mip.Var * float)) h (j : nat) :
  (∀ item, item ∈ l → mip.idx item.1 ≠ Z.of_nat j) →
  Highs.cols (set_costs l h) !! j = Highs.cols h !! j.
Proof.
  revert h. induction l as [|item l IH]; intros h Hl; simpl; [reflexivity|].
  rewrite IH.
  - apply changeColCost_other, Hl, list_elem_of_here.
  - intros it Hit. apply Hl. apply list_elem_of_further, Hit.
Qed.

Lemma items_not_mentioned (e : gmap mip.Var float) (i : Z) :
  e !! {| mip.idx := i |} = None →
  ∀ item, item ∈ mip.items e → mip.idx item.1 ≠ i.
Proof.
  intros Hnone [[i'] c] Hin Heq. simpl in Heq. subst i'.
  apply elem_of_map_to_list in Hin. congruence.
Qed.

Lemma set_objective_cols lin_expr sense self :
  Highs.cols (_model (set_objective lin_expr sense self).2) =
  Highs.cols (set_costs (written (mip.items (mip.expr lin_expr))) (_model self)).
Proof.
  rewrite set_objective_eq, int_indices_items. simpl.
  destruct (forallb _ _) eqn:Hint; [|reflexivity].
  rewrite (written_all _ Hint).
  repeat case_bool_decide; reflexivity.
Qed.

(** C10: a column whose variable is not a key of the expression's coefficient
    mapping is the same in the native model after [set_objective] as before,
    and so is its cost. *)
Theorem set_objective_frame
    (lin_expr : mip.LinExpr) (sense : string) (self : SolverHighs) (j : nat) :
  mip.expr lin_expr !! {| mip.idx := Z.of_nat j |} = None →
  Highs.cols (_model (set_objective lin_expr sense self).2) !! j =
    Highs.cols (_model self) !! j ∧
  Highs.col_cost <$> Highs.cols (_model (set_objective lin_expr sense self).2) !! j =
    Highs.col_cost <$> Highs.cols (_model self) !! j.
Proof.
  intros Hnone.
  assert (Hcol : Highs.cols (_model (set_objective lin_expr sense self).2) !! j =
                 Highs.cols (_model self) !! j).
  { rewrite set_objective_cols. apply set_costs_other. intros item Hitem.
    apply (items_not_mentioned _ _ Hnone), written_sub, Hitem. }
  split; [exact Hcol | rewrite Hcol; reflexivity].
Qed.

Lemma set_objective_frame_witness :
  mip.expr objective_on_x1 !! {| mip.idx := Z.of_nat 0 |} = None ∧
  Highs.col_cost <$> Highs.cols (_model (set_objective objective_on_x1 "" scenario).2) !! 0%nat =
    Highs.col_cost <$> Highs.cols (_model scenario) !! 0%nat.
Proof.
  split; [reflexivity|].
  apply (set_objective_frame objective_on_x1 "" scenario 0). reflexivity.
Defined.

(** ** Relaxation *)

Lemma set_col_integrality_twice k c :
  Highs.set_col_integrality k (Highs.set_col_integrality k c) =
  Highs.set_col_integrality k c.
Proof. reflexivity. Qed.

(** The bulk call of [relax] rewrites the integrality of every column. *)
Lemma changeColsIntegrality_all h :
  (Highs.Highs_changeColsIntegralityByRange 0 (Highs.Highs_getNumCol h - 1)
     (map (λ _, Highs.kHighsVarTypeContinuous) (range (Highs.Highs_getNumCol h))) h).2 =
  Highs.set_cols h
    (Highs.set_col_integrality Highs.kHighsVarTypeContinuous <$> Highs.cols h).
Proof.
  unfold Highs.Highs_changeColsIntegralityByRange, Highs.Highs_getNumCol,
    Highs.in_cols, range.
  destruct (Highs.cols h) as [|c0 cs] eqn:Hcols.
  - simpl. rewrite <- Hcols. symmetry. apply set_cols_same.
  - rewrite <- Hcols.
    assert (Hlen : 0 < Z.of_nat (length (Highs.cols h))).
    { rewrite Hcols. simpl. lia. }
    rewrite !bool_decide_eq_true_2 by lia. simpl. f_equal.
    apply list_eq. intros i.
    rewrite list_lookup_imap, (list_lookup_fmap _ (Highs.cols h)).
    destruct (Highs.cols h !! i) as [c|] eqn:Hi; simpl; [|reflexivity].
    apply lookup_lt_Some in Hi.
    rewrite bool_decide_eq_true_2 by lia.
    change (Z.to_nat 0) with 0%nat. rewrite Nat.sub_0_r.
    rewrite list_lookup_fmap, lookup_seqZ_lt by lia. reflexivity.
Qed.

Lemma relax_eq self :
  relax self =
  (Returned (),
   with_model self
     (Highs.set_cols (_model self)
        (Highs.set_col_integrality Highs.kHighsVarTypeContinuous
           <$> Highs.cols (_model self)))).
Proof.
  unfold relax, num_cols, query. unfold mbind, M_bind, mret, M_ret.
  rewrite call_eq, changeColsIntegrality_all. reflexivity.
Qed.


(** The integer column of the scenario is continuous after [relax]. *)
Example relax_scenario :
  Highs.col_integrality <$> Highs.cols (_model scenario) = [0; 1] ∧
  Highs.col_integrality <$> Highs.cols (_model (relax scenario).2) = [0; 0].
Proof. split; reflexivity. Qed.

(** ** The objective read back *)

Lemma set_costs_length (l : list (mip.Var * float)) h :
  length (Highs.cols (set_costs l h)) = length (Highs.cols h).
Proof.
  revert h. induction l as [|item l IH]; intros h; simpl; [reflexivity|].
  rewrite IH. unfold Highs.Highs_changeColCost.
  destruct (Highs.in_cols h _); simpl; [apply length_alter | reflexivity].
Qed.

Lemma changeColCost_same cost h (j : nat) col :
  Highs.cols h !! j = Some col →
  Highs.cols (Highs.Highs_changeColCost (Z.of_nat j) cost h).2 !! j =
  Some (Highs.set_col_cost cost col).
Proof.
  intros Hj. unfold Highs.Highs_changeColCost, Highs.in_cols.
  pose proof (lookup_lt_Some _ _ _ Hj) as Hlt.
  rewrite bool_decide_eq_true_2 by lia. simpl.
  rewrite Nat2Z.id, list_lookup_alter_eq, Hj. reflexivity.
Qed.

(** A column that the loop of [set_objective] mentions ends with the
    coefficient of its variable as cost. *)
Lemma set_costs_mentioned (l : list (mip.Var * float)) h (j : nat) c col :
  NoDup l.*1 →
  ({| mip.idx := Z.of_nat j |}, c) ∈ l →
  Highs.cols h !! j = Some col →
  Highs.cols (set_costs l h) !! j = Some (Highs.set_col_cost c col).
Proof.
  revert h col. induction l as [|item l IH]; intros h col Hnd Hin Hj.
  - apply elem_of_nil in Hin. contradiction.
  - simpl in Hnd. apply NoDup_cons in Hnd as [Hfresh Hnd].
    apply elem_of_cons in Hin as [<- | Hin]; simpl.
    + rewrite set_costs_other.
      * apply changeColCost_same, Hj.
      * intros [[i] c'] Hit Heq. simpl in Heq. subst i. apply Hfresh.
        apply list_elem_of_fmap. eexists. split; [|exact Hit]. reflexivity.
    + apply IH; [exact Hnd | exact Hin |].
      rewrite changeColCost_other; [exact Hj|].
      intros Heq. apply Hfresh. apply list_elem_of_fmap.
      eexists. split; [|exact Hin]. simpl.
      destruct item as [[i] c']. simpl in *. subst i. reflexivity.
Qed.

(** Adding a float to [0.0] gives the same number: the same float, except
    that [-0.0] comes back as [0.0]. *)
Lemma float_zero_add (x : float) : float_same (0 + x)%float x.
Proof.
  unfold float_same.
  assert (Hz : Prim2SF 0%float = S754_zero false) by reflexivity.
  destruct (Prim2SF x) as [s | s | | s m e] eqn:Hx.
  - right. rewrite FloatAxioms.eqb_spec, add_spec, Hz, Hx.
    destruct s; reflexivity.
  - left. apply Prim2SF_inj. rewrite add_spec, Hz, Hx. reflexivity.
  - left. apply Prim2SF_inj. rewrite add_spec, Hz, Hx. reflexivity.
  - left. apply Prim2SF_inj. rewrite add_spec, Hz, Hx. reflexivity.
Qed.

(** The costs that the range query of [get_objective] writes are the costs of
    all the columns. *)
Lemma getColsByRange_costs h :
  let n := Highs.Highs_getNumCol h in
  Highs.out_costs
    (Highs.Highs_getColsByRange 0 (n - 1) 0
       (replicate (Z.to_nat n) 0%float) (replicate (Z.to_nat n) 0%float)
       (replicate (Z.to_nat n) 0%float) 0 h).2 =
  Highs.col_cost <$> Highs.cols h.
Proof.
  unfold Highs.Highs_getColsByRange, Highs.Highs_getNumCol, Highs.in_cols.
  destruct (Highs.cols h) as [|c0 cs] eqn:Hcols; [reflexivity|].
  rewrite <- Hcols.
  assert (Hlen : 0 < Z.of_nat (length (Highs.cols h))).
  { rewrite Hcols. simpl. lia. }
  rewrite !bool_decide_eq_true_2 by lia. simpl.
  unfold Highs.write_buffer, Highs.slice.
  change (Z.to_nat 0) with 0%nat. rewrite drop_0.
  replace (Z.to_nat (Z.of_nat (length (Highs.cols h)) - 1 - 0 + 1))
    with (length (Highs.cols h)) by lia.
  rewrite firstn_all, drop_ge, app_nil_r; [reflexivity|].
  rewrite length_fmap, length_replicate. lia.
Qed.

Lemma py_getitem_in_range {A} (l : list A) (i : Z) :
  0 ≤ i → py_getitem l i = l !! Z.to_nat i.
Proof.
  intros Hi. unfold py_getitem. destruct (decide (0 ≤ i)); [reflexivity | lia].
Qed.

(** The generator of [get_objective] yields [cost_terms] and raises nothing
    when the front end has a variable for each column it asks for. *)
Lemma collect_cost_terms (costs : list float) (ixs : list Z) self :
  (∀ i, i ∈ ixs →
     0 ≤ i ∧ is_Some (costs !! Z.to_nat i) ∧
     mip.vars (model self) !! Z.to_nat i = Some {| mip.idx := i |}) →
  collect ixs (λ i,
    match costs !! Z.to_nat i with
    | Some c =>
        if float_ne c 0%float
        then var ← model_vars i; mret (Some (var, c))
        else mret None
    | None => raise IndexError
    end) self =
  (Returned (cost_terms costs ixs), self).
Proof.
  induction ixs as [|i ixs IH]; intros Hixs; [reflexivity|].
  destruct (Hixs i (list_elem_of_here _ _)) as (Hi & [c Hc] & Hvar).
  assert (Hrest : ∀ i', i' ∈ ixs →
     0 ≤ i' ∧ is_Some (costs !! Z.to_nat i') ∧
     mip.vars (model self) !! Z.to_nat i' = Some {| mip.idx := i' |}).
  { intros i' Hi'. apply Hixs, list_elem_of_further, Hi'. }
  specialize (IH Hrest).
  unfold cost_terms in *. simpl. rewrite Hc.
  unfold mbind, M_bind, mret, M_ret, model_vars in *.
  destruct (float_ne c 0%float).
  - rewrite py_getitem_in_range, Hvar by exact Hi. rewrite IH. reflexivity.
  - rewrite IH. reflexivity.
Qed.

Lemma elem_of_cost_terms (costs : list float) v c :
  (v, c) ∈ cost_terms costs (range (Z.of_nat (length costs))) ↔
  ∃ j : nat, v = {| mip.idx := Z.of_nat j |} ∧ costs !! j = Some c ∧
             float_ne c 0%float = true.
Proof.
  unfold cost_terms, range. rewrite list_elem_of_omap. split.
  - intros (i & Hi & Hf). apply elem_of_seqZ in Hi.
    destruct (costs !! Z.to_nat i) as [c'|] eqn:Hc; [|discriminate].
    destruct (float_ne c' 0%float) eqn:Hnz; [|discriminate].
    injection Hf as <- <-. exists (Z.to_nat i).
    rewrite Z2Nat.id by lia. auto.
  - intros (j & -> & Hc & Hnz). exists (Z.of_nat j). split.
    + apply elem_of_seqZ. apply lookup_lt_Some in Hc. lia.
    + rewrite Nat2Z.id, Hc, Hnz. reflexivity.
Qed.

Lemma NoDup_cost_terms (costs : list float) (ixs : list Z) :
  NoDup ixs → NoDup (cost_terms costs ixs).*1.
Proof.
  unfold cost_terms. induction 1 as [|i ixs Hfresh Hnd IH]; simpl; [constructor|].
  destruct (costs !! Z.to_nat i) as [c|]; [|exact IH].
  destruct (float_ne c 0%float); [|exact IH].
  simpl. constructor; [|exact IH].
  intros Hin. apply list_elem_of_fmap in Hin as ([v c'] & Hv & Hin).
  simpl in Hv. subst v.
  apply list_elem_of_omap in Hin as (i' & Hi' & Hf).
  destruct (costs !! Z.to_nat i') as [c''|]; [|discriminate].
  destruct (float_ne c'' 0%float); [|discriminate].
  injection Hf as <- _. contradiction.
Qed.

(** [xsum] of terms on distinct variables is the mapping of the terms. *)
Lemma fold_add_var (terms : list (mip.Var * float)) (acc : gmap mip.Var float) :
  NoDup terms.*1 →
  (∀ v, v ∈ terms.*1 → acc !! v = None) →
  fold_left (λ e t, mip.add_var e t.1 t.2) terms acc = list_to_map terms ∪ acc.
Proof.
  revert acc. induction terms as [|[v c] terms IH]; intros acc Hnd Hacc.
  - simpl. rewrite (left_id_L ∅ (∪)). reflexivity.
  - rewrite fmap_cons in Hnd. apply NoDup_cons in Hnd as [Hfresh Hnd].
    cbn [fold_left fst snd].
    replace (mip.add_var acc v c) with (<[v:=c]> acc).
    2:{ unfold mip.add_var. rewrite (Hacc v); [reflexivity|].
        rewrite fmap_cons. apply list_elem_of_here. }
    rewrite IH.
    + rewrite list_to_map_cons, <- insert_union_l. symmetry.
      apply insert_union_r, not_elem_of_list_to_map_1, Hfresh.
    + exact Hnd.
    + intros v' Hv'. rewrite lookup_insert_ne.
      * apply Hacc. rewrite fmap_cons. apply list_elem_of_further, Hv'.
      * intros ->. contradiction.
Qed.

Lemma xsum_distinct (terms : list (mip.Var * float)) :
  NoDup terms.*1 → mip.expr (mip.xsum terms) = list_to_map terms.
Proof.
  intros Hnd. unfold mip.xsum. simpl. rewrite fold_add_var.
  - apply (right_id_L ∅ (∪)).
  - exact Hnd.
  - intros v _. apply lookup_empty.
Qed.

Lemma get_objective_eq self s :
  vars_are_columns self →
  get_objective_sense self = (Returned s, self) →
  get_objective self =
  (Returned
     {| mip.expr :=
          mip.expr (mip.xsum
            (cost_terms (Highs.col_cost <$> Highs.cols (_model self))
               (range (Z.of_nat (length (Highs.cols (_model self)))))));
        mip.const := (0 + Highs.offset (_model self))%float;
        mip.sense := s |}, self).
Proof.
  intros Hvars Hsense.
  pose proof (getColsByRange_costs (_model self)) as Hcosts. simpl in Hcosts.
  pose proof (collect_cost_terms (Highs.col_cost <$> Highs.cols (_model self))
                (range (Z.of_nat (length (Highs.cols (_model self))))) self) as Hterms.
  unfold get_objective, num_cols, query, get_objective_const.
  unfold mbind, M_bind, mret, M_ret in *. simpl.
  destruct (Highs.Highs_getColsByRange _ _ _ _ _ _ _ _) as [status out].
  simpl in Hcosts. rewrite Hcosts.
  unfold Highs.Highs_getNumCol. rewrite Hterms.
  - rewrite Hsense. reflexivity.
  - intros i Hi. apply elem_of_seqZ in Hi. split; [lia|]. split.
    + apply lookup_lt_is_Some. rewrite length_fmap. lia.
    + rewrite (Hvars (Z.to_nat i)) by lia. rewrite Z2Nat.id by lia. reflexivity.
Qed.

Lemma over_columns_int lin_expr self :
  over_columns lin_expr self → int_indices lin_expr = true.
Proof.
  intros Hover. rewrite int_indices_items. apply forallb_forall.
  intros [v c] Hin. apply list_elem_of_In, elem_of_map_to_list in Hin.
  exact (proj2 (Hover v c Hin)).
Qed.

Lemma set_objective_returns lin_expr sense self :
  int_indices lin_expr = true →
  mip.sense lin_expr = mip.MINIMIZE ∨ mip.sense lin_expr = mip.MAXIMIZE →
  ∃ self',
    set_objective lin_expr sense self = (Returned (), self') ∧
    model self' = model self ∧
    Highs.cols (_model self') =
      Highs.cols (set_costs (mip.items (mip.expr lin_expr)) (_model self)) ∧
    Highs.offset (_model self') = mip.const lin_expr ∧
    get_objective_sense self' = (Returned (mip.sense lin_expr), self').
Proof.
  intros Hint Hsense. rewrite set_objective_eq, Hint. simpl.
  destruct Hsense as [-> | ->].
  - rewrite bool_decide_eq_false_2 by discriminate.
    rewrite bool_decide_eq_true_2 by reflexivity.
    eexists. split; [reflexivity|]. repeat split.
  - rewrite bool_decide_eq_true_2 by reflexivity.
    eexists. split; [reflexivity|]. repeat split.
Qed.

(** C3, as the code has it: when the front end's variables line up with the
    columns, the expression has a minimize or maximize sense, its variables
    are columns of the model, and every column it does not mention costs
    zero, then [set_objective] followed by [get_objective] returns the nonzero
    coefficients of the expression on the same variables, the same constant
    (as a number) and the same sense. *)
Theorem objective_round_trip_on_zero_costs
    (self : SolverHighs) (lin_expr : mip.LinExpr) (sense : string) :
  mip.sense lin_expr = mip.MINIMIZE ∨ mip.sense lin_expr = mip.MAXIMIZE →
  vars_are_columns self →
  over_columns lin_expr self →
  other_costs_zero lin_expr self →
  objective_round_trip self lin_expr sense.
Proof.
  intros Hsense Hvars Hover Hzero.
  destruct (set_objective_returns lin_expr sense self
              (over_columns_int _ _ Hover) Hsense)
    as (self1 & Hset & Hmodel & Hcols & Hoff & Hget).
  assert (Hlen : length (Highs.cols (_model self1)) = length (Highs.cols (_model self))).
  { rewrite Hcols. apply set_costs_length. }
  assert (Hvars1 : vars_are_columns self1).
  { intros j Hj. rewrite Hmodel. apply Hvars. lia. }
  unfold objective_round_trip. do 2 eexists. split.
  { unfold mbind, M_bind. rewrite Hset. apply (get_objective_eq _ _ Hvars1 Hget). }
  cbn [mip.expr mip.const mip.sense].
  split; [|split; [rewrite Hoff; apply float_zero_add | reflexivity]].
  assert (Hnd : NoDup (cost_terms (Highs.col_cost <$> Highs.cols (_model self1))
                         (range (Z.of_nat (length (Highs.cols (_model self1)))))).*1).
  { apply NoDup_cost_terms, NoDup_seqZ. }
  rewrite (xsum_distinct _ Hnd).
  apply map_eq. intros v. apply option_eq. intros c.
  rewrite <- (elem_of_list_to_map _ _ _ Hnd).
  rewrite <- (length_fmap Highs.col_cost (Highs.cols (_model self1))).
  rewrite elem_of_cost_terms, map_lookup_filter_Some.
  unfold nonzero_coefficient. simpl. split.
  - intros (j & -> & Hj & Hnz).
    rewrite list_lookup_fmap, Hcols in Hj.
    destruct (Highs.cols (_model self) !! j) as [col|] eqn:Hcol.
    2:{ apply lookup_ge_None in Hcol.
        rewrite lookup_ge_None_2 in Hj by (rewrite set_costs_length; exact Hcol).
        discriminate. }
    destruct (mip.expr lin_expr !! {| mip.idx := Z.of_nat j |}) as [c'|] eqn:He.
    + rewrite (set_costs_mentioned _ _ j c' col) in Hj.
      * injection Hj as <-. split; [reflexivity | exact Hnz].
      * apply NoDup_fst_map_to_list.
      * apply elem_of_map_to_list, He.
      * exact Hcol.
    + rewrite set_costs_other, Hcol in Hj by (apply items_not_mentioned, He).
      injection Hj as <-. rewrite (Hzero j col Hcol He) in Hnz. discriminate.
  - intros [He Hnz]. destruct v as [i].
    pose proof (proj1 (Hover _ _ He)) as Hi. simpl in Hi.
    exists (Z.to_nat i). rewrite Z2Nat.id by lia.
    split; [reflexivity|]. split; [|exact Hnz].
    destruct (lookup_lt_is_Some_2 (Highs.cols (_model self)) (Z.to_nat i)) as [col Hcol];
      [lia|].
    rewrite list_lookup_fmap, Hcols.
    rewrite (set_costs_mentioned _ _ (Z.to_nat i) c col).
    + reflexivity.
    + apply NoDup_fst_map_to_list.
    + apply elem_of_map_to_list. rewrite Z2Nat.id by lia. exact He.
    + exact Hcol.
Qed.

Lemma objective_round_trip_on_zero_costs_witness :
  (mip.sense objective_on_both = mip.MINIMIZE ∨
   mip.sense objective_on_both = mip.MAXIMIZE) ∧
  vars_are_columns scenario ∧
  over_columns objective_on_both scenario ∧
  other_costs_zero objective_on_both scenario ∧
  objective_round_trip scenario objective_on_both "".
Proof.
  assert (Hsense : mip.sense objective_on_both = mip.MINIMIZE ∨
                   mip.sense objective_on_both = mip.MAXIMIZE).
  { right. reflexivity. }
  assert (Hvars : vars_are_columns scenario).
  { intros [|[|j]] Hj; [reflexivity | reflexivity |].
    change (length (Highs.cols (_model scenario))) with 2%nat in Hj. lia. }
  assert (Hover : over_columns objective_on_both scenario).
  { assert (Hlen : length (Highs.cols (_model scenario)) = 2%nat) by reflexivity.
    intros [i] c Hc. rewrite Hlen. simpl.
    destruct (decide (i = 0)) as [-> | H0]; [split; [lia | reflexivity]|].
    destruct (decide (i = 1)) as [-> | H1]; [split; [lia | reflexivity]|].
    unfold objective_on_both, x0, x1 in Hc. simpl in Hc.
    rewrite lookup_insert_ne, lookup_singleton_ne in Hc by congruence.
    discriminate. }
  assert (Hzero : other_costs_zero objective_on_both scenario).
  { intros [|[|j]] col Hcol He; [discriminate He | discriminate He | discriminate Hcol]. }
  repeat (split; [assumption|]).
  exact (objective_round_trip_on_zero_costs scenario objective_on_both ""
           Hsense Hvars Hover Hzero).
Defined.

(** The claim of C3 fails on the scenario: the cost 2 of [x0], written when the
    variable was added, is read back although the objective set in between is
    on [x1] alone. *)
Lemma stale_cost_is_read_back :
  ¬ objective_round_trip scenario objective_on_x1 "".
Proof.
  intros (r & self' & Hrun & Hexpr & _).
  assert (H0 : mip.expr r !! x0 = Some 2%float).
  { vm_compute in Hrun. injection Hrun as <- _. reflexivity. }
  rewrite Hexpr in H0. apply map_lookup_filter_Some in H0 as [H0 _].
  discriminate H0.
Qed.

(** The objective of the scenario reads back as [2*x0 + 3*x1], minimized. *)
Example scenario_objective :
  (num_cols scenario).1 = Returned 2 ∧
  (num_rows scenario).1 = Returned 1 ∧
  (get_objective scenario).1 =
    Returned {| mip.expr := {[ x0 := 2%float; x1 := 3%float ]};
                mip.const := 0%float; mip.sense := mip.MINIMIZE |}.
Proof. repeat split; vm_compute; reflexivity. Qed.

(** What the resolver's path functions compute. *)
Example resolver_paths :
  dirname "/usr/lib/python3/highspy/__init__.py" = "/usr/lib/python3/highspy" ∧
  dirname "/x" = "/" ∧ dirname "x" = "" ∧
  path_join "/usr/lib" "highs_bindings.*.so" = "/usr/lib/highs_bindings.*.so" ∧
  contains "linux" (lower "Linux2") = true ∧
  contains "linux" (lower "darwin") = false.
Proof. repeat split; reflexivity. Qed.

(** * Further properties of the adapter *)

(** ** The resolver *)

(** X1: when [PMIP_HIGHS_LIBRARY] is set, its value is the only file tried:
    the [highspy] package, the platform and [glob] play no part, and
    [has_highs] is exactly whether [ffi.dlopen] loads that file. *)
Theorem override_takes_precedence (env : Environment) (libfile : string) :
  os_environ env !! ENV_KEY = Some libfile →
  import_module env =
  Returned (match ffi_dlopen env libfile with
            | Some lib => {| has_highs := true; highslib := Some lib |}
            | None => {| has_highs := false; highslib := None |}
            end).
Proof.
  intros Henv. unfold import_module, try_loading. rewrite Henv.
  unfold mbind, outcome_bind. destruct (ffi_dlopen env libfile); reflexivity.
Qed.

Lemma override_takes_precedence_witness :
  os_environ override_environment !! ENV_KEY = Some "/opt/highs/libhighs.so" ∧
  import_module override_environment =
  Returned {| has_highs := true; highslib := Some sample_library |}.
Proof.
  split; [reflexivity|].
  exact (override_takes_precedence override_environment "/opt/highs/libhighs.so" eq_refl).
Defined.

(** X2: without the override, the import ends with the library [libfile]
    loaded exactly when [highspy] can be imported, the platform's name
    contains "linux" in any case, [glob] finds [libfile] and nothing else
    under the package directory, and [ffi.dlopen] loads it. *)
Theorem package_lookup_loads_iff (env : Environment) (lib : Highs.Lib) :
  os_environ env !! ENV_KEY = None →
  import_module env = Returned {| has_highs := true; highslib := Some lib |} ↔
  ∃ file libfile,
    highspy_file env = Some file ∧
    contains "linux" (lower (sys_platform env)) = true ∧
    glob_glob env (path_join (dirname file) "highs_bindings.*.so") = [libfile] ∧
    ffi_dlopen env libfile = Some lib.
Proof.
  intros Henv. unfold import_module, try_loading. rewrite Henv.
  unfold mbind, outcome_bind. split.
  - destruct (highspy_file env) as [file|]; [|discriminate].
    destruct (contains "linux" (lower (sys_platform env))); [|discriminate].
    destruct (glob_glob env _) as [|f [|f' fs]] eqn:Hglob; try discriminate.
    destruct (ffi_dlopen env f) eqn:Hopen; [|discriminate].
    simpl. intros [= <-]. exists file, f. auto.
  - intros (file & libfile & -> & -> & -> & ->). reflexivity.
Qed.

Lemma package_lookup_loads_iff_witness :
  os_environ packaged_environment !! ENV_KEY = None ∧
  import_module packaged_environment =
  Returned {| has_highs := true; highslib := Some sample_library |}.
Proof.
  split; [reflexivity|].
  apply (package_lookup_loads_iff packaged_environment sample_library eq_refl).
  exists "/site/highspy/__init__.py", "/site/highspy/highs_bindings.cpython-311.so".
  repeat split.
Defined.

(** ** Construction with the library *)

(** X3: with the library loaded, the constructor returns an adapter exactly
    when [sense] is [MINIMIZE] or [MAXIMIZE], and raises [KeyError] for any
    other string. *)
Theorem init_returns_iff (lib : Highs.Lib) (m : mip.Model) (name sense : string) :
  ((sense = mip.MINIMIZE ∨ sense = mip.MAXIMIZE) ↔
   ∃ self, __init__ {| has_highs := true; highslib := Some lib |} m name sense =
           Returned self) ∧
  (sense ≠ mip.MINIMIZE → sense ≠ mip.MAXIMIZE →
   __init__ {| has_highs := true; highslib := Some lib |} m name sense =
   Raised KeyError).
Proof.
  unfold __init__. simpl.
  match goal with |- context [set_objective_sense sense ?s] =>
    destruct (set_objective_sense_cases sense s) as
      [[-> ->] | [[-> ->] | (Hmax & Hmin & ->)]] end; simpl.
  - split; [|intros _ Hne; contradiction].
    split; [eauto | intros _; right; reflexivity].
  - split; [|intros Hne; contradiction].
    split; [eauto | intros _; left; reflexivity].
  - split; [|reflexivity].
    split; [intros [? | ?]; contradiction | intros [? [=]]].
Qed.

(** X4: the adapter that the constructor returns reports the constructor's
    name and sense, no column, no row, and an objective with no coefficient
    and constant zero. *)
Theorem new_adapter_observations
    (g : Globals) (m : mip.Model) (name sense : string) (self : SolverHighs) :
  __init__ g m name sense = Returned self →
  get_problem_name self = (Returned name, self) ∧
  get_objective_sense self = (Returned sense, self) ∧
  num_cols self = (Returned 0, self) ∧
  num_rows self = (Returned 0, self) ∧
  get_objective self =
    (Returned {| mip.expr := ∅; mip.const := 0%float; mip.sense := sense |}, self).
Proof.
  intros Hinit.
  destruct (init_returns _ _ _ _ _ Hinit) as (_ & _ & Hsense & Hself).
  rewrite Hself. destruct Hsense as [-> | ->]; repeat split.
Qed.

Lemma new_adapter_observations_witness :
  __init__ loaded two_var_model "m" mip.MINIMIZE = Returned new_adapter ∧
  get_objective new_adapter =
    (Returned {| mip.expr := ∅; mip.const := 0%float; mip.sense := mip.MINIMIZE |},
     new_adapter).
Proof.
  split; [reflexivity|].
  apply (new_adapter_observations loaded two_var_model "m" mip.MINIMIZE new_adapter eq_refl).
Defined.

(** ** Senses that the methods do not know *)

(** X5: [set_objective_sense] with a string other than [MINIMIZE] and
    [MAXIMIZE] raises [KeyError] and leaves the adapter and its native model
    as they were. *)
Theorem set_objective_sense_unknown (sense : string) (self : SolverHighs) :
  sense ≠ mip.MINIMIZE → sense ≠ mip.MAXIMIZE →
  set_objective_sense sense self = (Raised KeyError, self).
Proof.
  intros Hmin Hmax.
  destruct (set_objective_sense_cases sense self) as
    [[-> _] | [[-> _] | (_ & _ & ->)]]; [contradiction | contradiction | reflexivity].
Qed.

Lemma set_objective_sense_unknown_witness :
  set_objective_sense mip.LESS_OR_EQUAL scenario = (Raised KeyError, scenario).
Proof.
  apply (set_objective_sense_unknown mip.LESS_OR_EQUAL scenario); discriminate.
Defined.

(** What the cost updates leave alone. *)
Lemma set_costs_rest (l : list (mip.Var * float)) h :
  Highs.rows (set_costs l h) = Highs.rows h ∧
  Highs.offset (set_costs l h) = Highs.offset h ∧
  Highs.obj_sense (set_costs l h) = Highs.obj_sense h ∧
  Highs.col_lower <$> Highs.cols (set_costs l h) = Highs.col_lower <$> Highs.cols h ∧
  Highs.col_upper <$> Highs.cols (set_costs l h) = Highs.col_upper <$> Highs.cols h ∧
  Highs.col_integrality <$> Highs.cols (set_costs l h) =
    Highs.col_integrality <$> Highs.cols h.
Proof.
  revert h. induction l as [|item l IH]; intros h; simpl; [repeat split|].
  destruct (IH (Highs.Highs_changeColCost (mip.idx item.1) item.2 h).2)
    as (-> & -> & -> & -> & -> & ->).
  unfold Highs.Highs_changeColCost. destruct (Highs.in_cols h _); simpl;
    [|repeat split].
  repeat split; apply list_eq; intros j;
    rewrite !list_lookup_fmap;
    (destruct (decide (Z.to_nat (mip.idx item.1) = j)) as [<- | Hne];
     [rewrite list_lookup_alter_eq; destruct (Highs.cols h !! _); reflexivity
     |rewrite list_lookup_alter_ne by exact Hne; reflexivity]).
Qed.

(** X6: [set_objective] with an expression whose variables' indices are C
    [int]s and whose sense is neither [MINIMIZE] nor [MAXIMIZE] (the default
    sense of an expression, or the sense of a constraint) raises [KeyError]
    only after its writes: the offset is the expression's constant, every
    column of a variable of the expression has that variable's coefficient as
    cost, and the native sense is unchanged. *)
Theorem set_objective_unknown_sense_writes
    (lin_expr : mip.LinExpr) (sense : string) (self : SolverHighs) :
  int_indices lin_expr = true →
  mip.sense lin_expr ≠ mip.MINIMIZE → mip.sense lin_expr ≠ mip.MAXIMIZE →
  ∃ self',
    set_objective lin_expr sense self = (Raised KeyError, self') ∧
    Highs.offset (_model self') = mip.const lin_expr ∧
    Highs.obj_sense (_model self') = Highs.obj_sense (_model self) ∧
    ∀ (j : nat) col c,
      Highs.cols (_model self) !! j = Some col →
      mip.expr lin_expr !! {| mip.idx := Z.of_nat j |} = Some c →
      Highs.cols (_model self') !! j = Some (Highs.set_col_cost c col).
Proof.
  intros Hint Hmin Hmax. rewrite set_objective_eq, Hint. simpl.
  rewrite !bool_decide_eq_false_2 by assumption.
  eexists. split; [reflexivity|]. simpl.
  destruct (set_costs_rest (mip.items (mip.expr lin_expr)) (_model self))
    as (_ & _ & Hs & _).
  split; [reflexivity|]. split; [exact Hs|].
  intros j col c Hcol He.
  apply (set_costs_mentioned _ _ j c col);
    [apply NoDup_fst_map_to_list | apply elem_of_map_to_list, He | exact Hcol].
Qed.

Lemma set_objective_unknown_sense_writes_witness :
  int_indices no_sense_objective = true ∧
  ∃ self',
    set_objective no_sense_objective "" scenario = (Raised KeyError, self') ∧
    Highs.offset (_model self') = 1%float ∧
    Highs.col_cost <$> Highs.cols (_model self') !! 0%nat = Some 9%float.
Proof.
  split; [reflexivity|].
  destruct (set_objective_unknown_sense_writes no_sense_objective "" scenario)
    as (self' & Hrun & Hoff & _ & Hcost); [reflexivity | discriminate | discriminate |].
  exists self'. split; [exact Hrun|]. split; [exact Hoff|].
  rewrite (Hcost 0%nat _ 9%float eq_refl eq_refl). reflexivity.
Defined.

(** ** Rows *)

(** X7: [add_constr] with an expression whose sense is none of [<], [>] and
    [=] fails its assertion before any native call: it raises
    [AssertionError], no row is added and no name is stored. *)
Theorem add_constr_unknown_sense
    (lin_expr : mip.LinExpr) (name : string) (self : SolverHighs) :
  mip.sense lin_expr ≠ mip.LESS_OR_EQUAL →
  mip.sense lin_expr ≠ mip.GREATER_OR_EQUAL →
  mip.sense lin_expr ≠ mip.EQUAL →
  add_constr lin_expr name self = (Raised AssertionError, self).
Proof.
  intros Hle Hge Heq. rewrite add_constr_eq. unfold add_constr_args.
  rewrite !bool_decide_eq_false_2 by assumption. reflexivity.
Qed.

Lemma add_constr_unknown_sense_witness :
  add_constr objective_on_x1 "c2" scenario = (Raised AssertionError, scenario).
Proof.
  apply (add_constr_unknown_sense objective_on_x1 "c2" scenario); discriminate.
Defined.

Lemma zip_map_same {A B C} (f : A → B) (g : A → C) (l : list A) :
  zip (map f l) (map g l) = (λ x, (f x, g x)) <$> l.
Proof. induction l as [|x l IH]; simpl; [reflexivity | f_equal; exact IH]. Qed.

(** X8: for a sense among [<], [>] and [=], when the indices of the variables
    and the number of entries are C [int]s, [add_constr] returns; the entries
    it sends to [Highs_addRow] pair the index of each variable of the
    expression with its coefficient, and are nothing else, [num_new_nz] being
    their number; the native model is what [Highs_addRow] leaves for these
    arguments; the name is appended
    and bound to what [num_rows()] returned; the native model has the row
    appended when the library takes it and is unchanged when it refuses it,
    its columns and objective and the variable registry untouched either
    way. *)
Theorem add_constr_row_entries
    (lin_expr : mip.LinExpr) (name : string) (self : SolverHighs) :
  mip.sense lin_expr = mip.LESS_OR_EQUAL ∨
  mip.sense lin_expr = mip.GREATER_OR_EQUAL ∨
  mip.sense lin_expr = mip.EQUAL →
  int_row lin_expr = true →
  ∃ args self',
    add_constr_args lin_expr = Returned args ∧
    add_constr lin_expr name self = (Returned (), self') ∧
    _model self' =
      (Highs.Highs_addRow (_lib self) (arg_lower args) (arg_upper args)
         (arg_num_new_nz args) (arg_index args) (arg_value args) (_model self)).2 ∧
    arg_num_new_nz args = Z.of_nat (size (mip.expr lin_expr)) ∧
    length (arg_index args) = size (mip.expr lin_expr) ∧
    length (arg_value args) = size (mip.expr lin_expr) ∧
    (∀ i c, (i, c) ∈ zip (arg_index args) (arg_value args) ↔
            mip.expr lin_expr !! {| mip.idx := i |} = Some c) ∧
    _cons_name self' = _cons_name self ++ [name] ∧
    _cons_col self' !! name = Some (Highs.Highs_getNumRow (_model self)) ∧
    (Highs.rows (_model self') = Highs.rows (_model self) ∨
     ∃ row, Highs.rows (_model self') = Highs.rows (_model self) ++ [row]) ∧
    Highs.cols (_model self') = Highs.cols (_model self) ∧
    Highs.offset (_model self') = Highs.offset (_model self) ∧
    Highs.obj_sense (_model self') = Highs.obj_sense (_model self) ∧
    _var_name self' = _var_name self ∧ _var_col self' = _var_col self.
Proof.
  intros Hsense Hint.
  pose proof (add_constr_args_returns lin_expr Hsense Hint) as Hargs.
  assert (Hlen : length (mip.items (mip.expr lin_expr)) = size (mip.expr lin_expr)).
  { unfold mip.items. apply length_map_to_list. }
  eexists. eexists. split; [exact Hargs|]. rewrite add_constr_eq, Hargs.
  cbn [arg_lower arg_upper arg_num_new_nz arg_index arg_value].
  split; [reflexivity|]. cbn [store_cons_name snd _model with_model _cons_name
                            _cons_col _var_name _var_col].
  split; [reflexivity|]. split; [reflexivity|].
  rewrite !length_map. split; [exact Hlen|]. split; [exact Hlen|].
  split.
  { intros i c. rewrite zip_map_same. split.
    - intros Hin. apply list_elem_of_fmap in Hin as ([[i'] c'] & [= -> ->] & Hin).
      apply elem_of_map_to_list in Hin. exact Hin.
    - intros He. apply list_elem_of_fmap.
      exists ({| mip.idx := i |}, c). split; [reflexivity|].
      apply elem_of_map_to_list, He. }
  split; [reflexivity|]. split; [apply lookup_insert_eq|].
  match goal with |- context [Highs.Highs_addRow ?l ?lo ?up ?n ?ix ?v ?h] =>
    destruct (addRow_cases l lo up n ix v h) as [[_ [row ->]] | [_ ->]] end;
    simpl; repeat split; eauto.
Qed.

Lemma add_constr_row_entries_witness :
  (mip.sense sum_at_most_ten = mip.LESS_OR_EQUAL ∨
   mip.sense sum_at_most_ten = mip.GREATER_OR_EQUAL ∨
   mip.sense sum_at_most_ten = mip.EQUAL) ∧
  int_row sum_at_most_ten = true ∧
  ∃ args self',
    add_constr sum_at_most_ten "again" scenario = (Returned (), self') ∧
    length (arg_index args) = 2%nat ∧
    _cons_col self' !! "again" = Some 1.
Proof.
  split; [left; reflexivity|]. split; [reflexivity|].
  destruct (add_constr_row_entries sum_at_most_ten "again" scenario)
    as (args & self' & _ & Hrun & _ & _ & Hlen & _ & _ & _ & Hcol & _);
    [left; reflexivity | reflexivity |].
  exists args, self'. repeat split; assumption.
Defined.

(** ** Reading the objective *)

Lemma collect_state {A B} (l : list A) (f : A → M (option B)) self :
  (∀ x s, (f x s).2 = s) → (collect l f self).2 = self.
Proof.
  intros Hf. revert self. induction l as [|x l IH]; intros self; [reflexivity|].
  simpl. unfold mbind, M_bind, mret, M_ret.
  pose proof (Hf x self) as Hx. destruct (f x self) as [[o|e] s]; simpl in Hx; subst s;
    [|reflexivity].
  pose proof (IH self) as Hl. destruct (collect l f self) as [[r|e] s]; simpl in Hl;
    subst s; reflexivity.
Qed.

Lemma get_objective_sense_state self : (get_objective_sense self).2 = self.
Proof.
  unfold get_objective_sense, query. unfold mbind, M_bind, mret, M_ret, raise. simpl.
  match goal with |- context [?m !! ?k] => destruct (m !! k) end; reflexivity.
Qed.

Lemma get_objective_state self : (get_objective self).2 = self.
Proof.
  unfold get_objective, num_cols, query, get_objective_const.
  unfold mbind, M_bind, mret, M_ret. simpl.
  destruct (Highs.Highs_getColsByRange _ _ _ _ _ _ _ _) as [status out].
  match goal with |- context [collect ?l ?f self] =>
    pose proof (collect_state l f self) as Hc;
    destruct (collect l f self) as [[terms|e] s] end;
    simpl in Hc; rewrite Hc; try reflexivity.
  - pose proof (get_objective_sense_state self) as Hs.
    destruct (get_objective_sense self) as [[sn|e] s']; simpl in Hs; subst s';
      reflexivity.
  - intros i s0. destruct (Highs.out_costs out !! Z.to_nat i) as [c|]; [|reflexivity].
    destruct (float_ne c 0%float); [|reflexivity].
    unfold model_vars. destruct (py_getitem _ _); reflexivity.
  - intros i s0. destruct (Highs.out_costs out !! Z.to_nat i) as [c|]; [|reflexivity].
    destruct (float_ne c 0%float); [|reflexivity].
    unfold model_vars. destruct (py_getitem _ _); reflexivity.
Qed.

(** X9: [get_objective] and [get_objective_sense] only read: whether they
    return or raise, the adapter and its native model are as before the
    call. *)
Theorem get_objective_reads_only (self : SolverHighs) :
  (get_objective self).2 = self ∧ (get_objective_sense self).2 = self.
Proof. split; [apply get_objective_state | apply get_objective_sense_state]. Qed.

Lemma collect_raises {A B} (l : list A) (f : A → M (option B)) self e x :
  (∀ y, (∃ o, f y self = (Returned o, self)) ∨ f y self = (Raised e, self)) →
  x ∈ l → f x self = (Raised e, self) →
  collect l f self = (Raised e, self).
Proof.
  intros Hf Hin Hx. induction l as [|y l IH]; [apply elem_of_nil in Hin; contradiction|].
  simpl. unfold mbind, M_bind, mret, M_ret.
  destruct (Hf y) as [[o Hy] | Hy]; rewrite Hy; [|reflexivity].
  apply elem_of_cons in Hin as [-> | Hin]; [rewrite Hx in Hy; discriminate|].
  rewrite (IH Hin). reflexivity.
Qed.

(** X10: [get_objective] raises [IndexError] when some column with a nonzero
    cost has no variable at its position in the front end's list
    [self.model.vars]; the adapter is unchanged. *)
Theorem get_objective_without_variable (self : SolverHighs) (j : nat) col :
  Highs.cols (_model self) !! j = Some col →
  float_ne (Highs.col_cost col) 0%float = true →
  (length (mip.vars (model self)) ≤ j)%nat →
  get_objective self = (Raised IndexError, self).
Proof.
  intros Hcol Hnz Hshort.
  pose proof (getColsByRange_costs (_model self)) as Hcosts. simpl in Hcosts.
  unfold get_objective, num_cols, query.
  unfold mbind, M_bind, mret, M_ret in *. simpl.
  destruct (Highs.Highs_getColsByRange _ _ _ _ _ _ _ _) as [status out].
  simpl in Hcosts. rewrite Hcosts.
  rewrite (collect_raises _ _ self IndexError (Z.of_nat j)); [reflexivity | | |].
  - intros i. destruct ((Highs.col_cost <$> Highs.cols (_model self)) !! Z.to_nat i);
      [|right; reflexivity].
    destruct (float_ne f 0%float); [|left; eauto].
    unfold model_vars. destruct (py_getitem _ _); [left; eauto | right; reflexivity].
  - unfold range, Highs.Highs_getNumCol. apply elem_of_seqZ.
    apply lookup_lt_Some in Hcol. lia.
  - rewrite Nat2Z.id, list_lookup_fmap, Hcol. simpl. rewrite Hnz.
    unfold model_vars. rewrite py_getitem_nat, lookup_ge_None_2 by exact Hshort.
    reflexivity.
Qed.

Lemma get_objective_without_variable_witness :
  get_objective (after [AddVar var_x; AddVar var_y; AddVar var_x] new_adapter) =
  (Raised IndexError, after [AddVar var_x; AddVar var_y; AddVar var_x] new_adapter).
Proof.
  apply (get_objective_without_variable _ 2%nat (new_col 2 0 mip.INF mip.CONTINUOUS));
    [reflexivity | reflexivity | simpl; lia].
Defined.

Lemma get_objective_sense_known self :
  Highs.obj_sense (_model self) = Highs.kHighsObjSenseMinimize ∨
  Highs.obj_sense (_model self) = Highs.kHighsObjSenseMaximize →
  ∃ s, get_objective_sense self = (Returned s, self) ∧
       (s = mip.MINIMIZE ∧ Highs.obj_sense (_model self) = 1 ∨
        s = mip.MAXIMIZE ∧ Highs.obj_sense (_model self) = -1).
Proof.
  unfold get_objective_sense, query. unfold mbind, M_bind, mret, M_ret. simpl.
  intros [H | H]; rewrite H; eexists; (split; [reflexivity|]); [left | right];
    split; reflexivity.
Qed.

(** X11: when the front end's variables line up with the columns and the
    native sense is one of the two constants, [get_objective] returns an
    expression whose coefficients are exactly the nonzero costs of the
    columns, each on the variable of its column, whose constant is the native
    offset and whose sense is the name of the native sense. *)
Theorem get_objective_reads_costs (self : SolverHighs) :
  vars_are_columns self →
  Highs.obj_sense (_model self) = Highs.kHighsObjSenseMinimize ∨
  Highs.obj_sense (_model self) = Highs.kHighsObjSenseMaximize →
  ∃ r,
    get_objective self = (Returned r, self) ∧
    (∀ v c, mip.expr r !! v = Some c ↔
       ∃ (j : nat) col,
         v = {| mip.idx := Z.of_nat j |} ∧
         Highs.cols (_model self) !! j = Some col ∧
         Highs.col_cost col = c ∧ float_ne c 0%float = true) ∧
    float_same (mip.const r) (Highs.offset (_model self)) ∧
    (mip.sense r = mip.MINIMIZE ∧ Highs.obj_sense (_model self) = 1 ∨
     mip.sense r = mip.MAXIMIZE ∧ Highs.obj_sense (_model self) = -1).
Proof.
  intros Hvars Hsense.
  destruct (get_objective_sense_known self Hsense) as (s & Hget & Hs).
  eexists. split; [apply (get_objective_eq _ _ Hvars Hget)|].
  cbn [mip.expr mip.const mip.sense].
  split; [|split; [apply float_zero_add | exact Hs]].
  assert (Hnd : NoDup (cost_terms (Highs.col_cost <$> Highs.cols (_model self))
                         (range (Z.of_nat (length (Highs.cols (_model self)))))).*1).
  { apply NoDup_cost_terms, NoDup_seqZ. }
  intros v c. rewrite (xsum_distinct _ Hnd).
  rewrite <- (elem_of_list_to_map _ _ _ Hnd).
  rewrite <- (length_fmap Highs.col_cost (Highs.cols (_model self))).
  rewrite elem_of_cost_terms. split.
  - intros (j & -> & Hj & Hnz). rewrite list_lookup_fmap in Hj.
    destruct (Highs.cols (_model self) !! j) as [col|] eqn:Hcol; [|discriminate].
    injection Hj as <-. exists j, col. auto.
  - intros (j & col & -> & Hcol & <- & Hnz). exists j.
    rewrite list_lookup_fmap, Hcol. auto.
Qed.

Lemma get_objective_reads_costs_witness :
  vars_are_columns scenario ∧
  ∃ r, get_objective scenario = (Returned r, scenario) ∧
       mip.sense r = mip.MINIMIZE.
Proof.
  assert (Hvars : vars_are_columns scenario).
  { intros [|[|j]] Hj; [reflexivity | reflexivity |].
    change (length (Highs.cols (_model scenario))) with 2%nat in Hj. lia. }
  split; [exact Hvars|].
  destruct (get_objective_reads_costs scenario Hvars (or_introl eq_refl))
    as (r & Hget & _ & _ & [[Hs _] | [_ Hmax]]).
  - exists r. split; assumption.
  - discriminate Hmax.
Defined.

(** ** What every method keeps *)



















(** ** Names after any sequence of calls *)





(** X16: [var_get_name(idx)] follows Python's list indexing: for
    [-len <= idx < len] it returns the name at position [idx mod len], so a
    negative index counts from the last name, and for any other index it
    raises [IndexError]. *)
Theorem var_get_name_bounds (self : SolverHighs) (idx : Z) :
  (- Z.of_nat (length (_var_name self)) ≤ idx < Z.of_nat (length (_var_name self)) →
   ∃ nm,
     _var_name self !! Z.to_nat (idx `mod` Z.of_nat (length (_var_name self))) = Some nm ∧
     var_get_name idx self = (Returned nm, self)) ∧
  (idx < - Z.of_nat (length (_var_name self)) ∨
   Z.of_nat (length (_var_name self)) ≤ idx →
   var_get_name idx self = (Raised IndexError, self)).
Proof.
  unfold var_get_name, py_getitem.
  set (n := Z.of_nat (length (_var_name self))). split.
  - intros Hidx.
    assert (Hpos : idx `mod` n =
                   if decide (0 ≤ idx) then idx else n + idx).
    { destruct (decide (0 ≤ idx)).
      - apply Z.mod_small. lia.
      - symmetry. apply (Z.mod_unique_pos _ _ (-1)); lia. }
    rewrite Hpos.
    destruct (decide (0 ≤ idx)).
    + destruct (lookup_lt_is_Some_2 (_var_name self) (Z.to_nat idx)) as [nm Hnm];
        [lia|]. exists nm. rewrite Hnm. auto.
    + destruct (decide (- n ≤ idx)); [|lia].
      destruct (lookup_lt_is_Some_2 (_var_name self) (Z.to_nat (n + idx))) as [nm Hnm];
        [lia|]. exists nm. rewrite Hnm. auto.
  - intros Hidx. destruct (decide (0 ≤ idx)).
    + rewrite lookup_ge_None_2 by lia. reflexivity.
    + destruct (decide (- n ≤ idx)); [lia | reflexivity].
Qed.

Lemma var_get_name_bounds_witness :
  var_get_name (-1) scenario = (Returned "y", scenario) ∧
  var_get_name 2 scenario = (Raised IndexError, scenario) ∧
  var_get_name (-3) scenario = (Raised IndexError, scenario).
Proof.
  destruct (var_get_name_bounds scenario (-1)) as [Hin _].
  destruct (var_get_name_bounds scenario 2) as [_ Hhigh].
  destruct (var_get_name_bounds scenario (-3)) as [_ Hlow].
  change (length (_var_name scenario)) with 2%nat in Hin, Hhigh, Hlow.
  split; [|split].
  - destruct Hin as (nm & Hnm & Hget); [lia|].
    rewrite Hget. injection Hnm as <-. reflexivity.
  - apply Hhigh. right. lia.
  - apply Hlow. left. lia.
Defined.

(** ** What [relax], [set_objective] and [add_var] leave alone *)

Lemma collect_ext {A B} (l : list A) (f : A → M (option B)) s1 s2 :
  (∀ x s, (f x s).2 = s) →
  (∀ x, (f x s1).1 = (f x s2).1) →
  (collect l f s1).1 = (collect l f s2).1.
Proof.
  intros Hst Hf. induction l as [|x l IH]; [reflexivity|].
  simpl. unfold mbind, M_bind, mret, M_ret.
  pose proof (Hst x s1) as H1. pose proof (Hst x s2) as H2. pose proof (Hf x) as Hx.
  destruct (f x s1) as [o1 t1], (f x s2) as [o2 t2]. simpl in *. subst t1 t2 o2.
  destruct o1 as [o|e]; [|reflexivity].
  pose proof (collect_state l f s1 Hst) as H1. pose proof (collect_state l f s2 Hst) as H2.
  destruct (collect l f s1) as [r1 t1], (collect l f s2) as [r2 t2].
  simpl in *. subst t1 t2 r2. destruct r1; reflexivity.
Qed.

(** What [get_objective] gives depends on the costs of the columns, the
    offset, the native sense and the front end's variables only. *)
Lemma get_objective_ext s1 s2 :
  model s1 = model s2 →
  Highs.col_cost <$> Highs.cols (_model s1) = Highs.col_cost <$> Highs.cols (_model s2) →
  Highs.offset (_model s1) = Highs.offset (_model s2) →
  Highs.obj_sense (_model s1) = Highs.obj_sense (_model s2) →
  (get_objective s1).1 = (get_objective s2).1.
Proof.
  intros Hm Hc Ho Hs.
  pose proof (getColsByRange_costs (_model s1)) as H1.
  pose proof (getColsByRange_costs (_model s2)) as H2. simpl in H1, H2.
  assert (Hn : Highs.Highs_getNumCol (_model s1) = Highs.Highs_getNumCol (_model s2)).
  { unfold Highs.Highs_getNumCol. f_equal.
    rewrite <- (length_fmap Highs.col_cost (Highs.cols (_model s1))), Hc.
    apply length_fmap. }
  unfold get_objective, num_cols, query, get_objective_const, get_objective_sense.
  unfold mbind, M_bind, mret, M_ret in *. simpl.
  destruct (Highs.Highs_getColsByRange _ _ _ _ _ _ _ (_model s1)) as [st1 out1].
  destruct (Highs.Highs_getColsByRange _ _ _ _ _ _ _ (_model s2)) as [st2 out2].
  simpl in H1, H2. rewrite H1, H2, <- Hc, <- Hn.
  match goal with |- context [collect ?l ?f s1] =>
    assert (Hst : ∀ x s, (f x s).2 = s);
    [| pose proof (collect_ext l f s1 s2 Hst) as Hext;
       pose proof (collect_state l f s1 Hst) as Hs1;
       pose proof (collect_state l f s2 Hst) as Hs2;
       destruct (collect l f s1) as [r1 t1], (collect l f s2) as [r2 t2] ] end.
  { intros i s. destruct (_ !! Z.to_nat i) as [c|]; [|reflexivity].
    destruct (float_ne c 0%float); [|reflexivity].
    unfold model_vars. destruct (py_getitem _ _); reflexivity. }
  simpl in Hext, Hs1, Hs2. subst t1 t2. rewrite <- Hext.
  - destruct r1 as [terms|e]; [|reflexivity]. simpl.
    rewrite <- Ho, <- Hs.
    match goal with |- context [?mp !! ?k] => destruct (mp !! k) end; reflexivity.
  - intros i. destruct (_ !! Z.to_nat i) as [c|]; [|reflexivity].
    destruct (float_ne c 0%float); [|reflexivity].
    unfold model_vars. rewrite Hm. destruct (py_getitem _ _); reflexivity.
Qed.

(** X17: [relax] changes the integrality of the columns and nothing else: the
    costs and bounds of the columns, the rows, the offset, the sense and both
    registries are as before, and [get_objective] gives the same result after
    the call as before it. *)
Theorem relax_changes_kinds_only (self : SolverHighs) :
  ∃ self',
    relax self = (Returned (), self') ∧
    Highs.col_cost <$> Highs.cols (_model self') =
      Highs.col_cost <$> Highs.cols (_model self) ∧
    Highs.col_lower <$> Highs.cols (_model self') =
      Highs.col_lower <$> Highs.cols (_model self) ∧
    Highs.col_upper <$> Highs.cols (_model self') =
      Highs.col_upper <$> Highs.cols (_model self) ∧
    Highs.rows (_model self') = Highs.rows (_model self) ∧
    Highs.offset (_model self') = Highs.offset (_model self) ∧
    Highs.obj_sense (_model self') = Highs.obj_sense (_model self) ∧
    _var_name self' = _var_name self ∧ _var_col self' = _var_col self ∧
    _cons_name self' = _cons_name self ∧ _cons_col self' = _cons_col self ∧
    (get_objective self').1 = (get_objective self).1.
Proof.
  eexists. split; [apply relax_eq|]. simpl.
  assert (Hcost : Highs.col_cost <$>
                    (Highs.set_col_integrality Highs.kHighsVarTypeContinuous
                       <$> Highs.cols (_model self)) =
                  Highs.col_cost <$> Highs.cols (_model self)).
  { rewrite <- list_fmap_compose. reflexivity. }
  split; [exact Hcost|].
  repeat split; try (rewrite <- list_fmap_compose; reflexivity).
  apply get_objective_ext; simpl; [reflexivity | exact Hcost | reflexivity | reflexivity].
Qed.

(** X18: [set_objective], whether it returns or raises, changes no bound and
    no integrality of a column, adds or removes no column and no row, and
    leaves both registries as they were. *)
Theorem set_objective_keeps_columns_and_rows
    (lin_expr : mip.LinExpr) (sense : string) (self : SolverHighs) :
  Highs.col_lower <$> Highs.cols (_model (set_objective lin_expr sense self).2) =
    Highs.col_lower <$> Highs.cols (_model self) ∧
  Highs.col_upper <$> Highs.cols (_model (set_objective lin_expr sense self).2) =
    Highs.col_upper <$> Highs.cols (_model self) ∧
  Highs.col_integrality <$> Highs.cols (_model (set_objective lin_expr sense self).2) =
    Highs.col_integrality <$> Highs.cols (_model self) ∧
  Highs.rows (_model (set_objective lin_expr sense self).2) = Highs.rows (_model self) ∧
  _var_name (set_objective lin_expr sense self).2 = _var_name self ∧
  _var_col (set_objective lin_expr sense self).2 = _var_col self ∧
  _cons_name (set_objective lin_expr sense self).2 = _cons_name self ∧
  _cons_col (set_objective lin_expr sense self).2 = _cons_col self.
Proof.
  destruct (set_costs_rest (mip.items (mip.expr lin_expr)) (_model self))
    as (Hrows & _ & _ & Hlo & Hup & Hint).
  destruct (set_costs_rest (written (mip.items (mip.expr lin_expr))) (_model self))
    as (Hrows' & _ & _ & Hlo' & Hup' & Hint').
  rewrite set_objective_eq. simpl.
  destruct (int_indices lin_expr); repeat case_bool_decide; simpl;
    repeat split; assumption.
Qed.


(** X20: the objective constant and the problem name read back as they were
    set, and setting one touches neither the other nor the columns, the rows,
    the sense or the registries. *)
Theorem const_and_name_round_trip (c : float) (name : string) (self : SolverHighs) :
  (∃ self',
     set_objective_const c self = (Returned (), self') ∧
     get_objective_const self' = (Returned c, self') ∧
     get_problem_name self' = (Returned (_name self), self') ∧
     Highs.cols (_model self') = Highs.cols (_model self) ∧
     Highs.rows (_model self') = Highs.rows (_model self) ∧
     Highs.obj_sense (_model self') = Highs.obj_sense (_model self) ∧
     _var_col self' = _var_col self ∧ _cons_col self' = _cons_col self) ∧
  (∃ self',
     set_problem_name name self = (Returned (), self') ∧
     get_problem_name self' = (Returned name, self') ∧
     _model self' = _model self ∧
     _var_name self' = _var_name self ∧ _var_col self' = _var_col self ∧
     _cons_name self' = _cons_name self ∧ _cons_col self' = _cons_col self).
Proof.
  split; eexists; (split; [reflexivity|]); simpl; repeat split.
Qed.

(** ** Setting the objective, constructing *)

(** X21: for an expression whose sense is [MINIMIZE] or [MAXIMIZE] and whose
    variables all have an index that is a C [int], [set_objective] returns:
    the offset becomes the expression's constant, the native sense the
    constant of the expression's sense, and every column of a variable of the
    expression takes that variable's coefficient as cost, its bounds and kind
    unchanged.  When an index is no C [int] the call raises [OverflowError]
    with the offset and the sense as they were. *)
Theorem set_objective_writes
    (lin_expr : mip.LinExpr) (sense : string) (self : SolverHighs) :
  mip.sense lin_expr = mip.MINIMIZE ∨ mip.sense lin_expr = mip.MAXIMIZE →
  (int_indices lin_expr = true →
   ∃ self',
     set_objective lin_expr sense self = (Returned (), self') ∧
     Highs.offset (_model self') = mip.const lin_expr ∧
     (mip.sense lin_expr = mip.MINIMIZE ∧ Highs.obj_sense (_model self') = 1 ∨
      mip.sense lin_expr = mip.MAXIMIZE ∧ Highs.obj_sense (_model self') = -1) ∧
     ∀ (j : nat) col c,
       Highs.cols (_model self) !! j = Some col →
       mip.expr lin_expr !! {| mip.idx := Z.of_nat j |} = Some c →
       Highs.cols (_model self') !! j = Some (Highs.set_col_cost c col)) ∧
  (int_indices lin_expr = false →
   ∃ self',
     set_objective lin_expr sense self = (Raised OverflowError, self') ∧
     Highs.offset (_model self') = Highs.offset (_model self) ∧
     Highs.obj_sense (_model self') = Highs.obj_sense (_model self)).
Proof.
  intros Hsense. rewrite set_objective_eq. split; intros Hint; rewrite Hint.
  - assert (Hcost : ∀ (j : nat) col c,
      Highs.cols (_model self) !! j = Some col →
      mip.expr lin_expr !! {| mip.idx := Z.of_nat j |} = Some c →
      Highs.cols (set_costs (mip.items (mip.expr lin_expr)) (_model self)) !! j =
      Some (Highs.set_col_cost c col)).
    { intros j col c Hcol He. apply (set_costs_mentioned _ _ j c col);
        [apply NoDup_fst_map_to_list | apply elem_of_map_to_list, He | exact Hcol]. }
    simpl. destruct Hsense as [Hs | Hs]; rewrite Hs.
    + rewrite bool_decide_eq_false_2 by discriminate.
      rewrite bool_decide_eq_true_2 by reflexivity.
      eexists. split; [reflexivity|]. simpl.
      split; [reflexivity|]. split; [left; split; reflexivity | exact Hcost].
    + rewrite bool_decide_eq_true_2 by reflexivity.
      eexists. split; [reflexivity|]. simpl.
      split; [reflexivity|]. split; [right; split; reflexivity | exact Hcost].
  - destruct (set_costs_rest (written (mip.items (mip.expr lin_expr))) (_model self))
      as (_ & Hoff & Hsns & _).
    eexists. split; [reflexivity|]. simpl. split; assumption.
Qed.

Lemma set_objective_writes_witness :
  (∃ self',
     set_objective objective_on_x1 "" scenario = (Returned (), self') ∧
     Highs.offset (_model self') = 7%float ∧
     Highs.col_cost <$> Highs.cols (_model self') !! 1%nat = Some 5%float) ∧
  (∃ self',
     set_objective objective_on_far_variable "" scenario =
       (Raised OverflowError, self') ∧
     Highs.offset (_model self') = 0%float).
Proof.
  split.
  - destruct (set_objective_writes objective_on_x1 "" scenario (or_intror eq_refl))
      as [Hret _].
    destruct (Hret eq_refl) as (self' & Hrun & Hoff & _ & Hcost).
    exists self'. split; [exact Hrun|]. split; [exact Hoff|].
    rewrite (Hcost 1%nat _ 5%float eq_refl eq_refl). reflexivity.
  - destruct (set_objective_writes objective_on_far_variable "" scenario
                (or_intror eq_refl)) as [_ Hraise].
    destruct (Hraise eq_refl) as (self' & Hrun & Hoff & _).
    exists self'. split; [exact Hrun|]. rewrite Hoff. reflexivity.
Defined.

Lemma init_returns_for lib m name sense :
  (sense = mip.MINIMIZE ∨ sense = mip.MAXIMIZE) ↔
  ∃ self, __init__ {| has_highs := true; highslib := Some lib |} m name sense =
          Returned self.
Proof.
  unfold __init__. simpl.
  match goal with |- context [set_objective_sense sense ?s] =>
    destruct (set_objective_sense_cases sense s) as
      [[-> ->] | [[-> ->] | (Hmax & Hmin & ->)]] end; simpl.
  - split; [eauto | intros _; right; reflexivity].
  - split; [eauto | intros _; left; reflexivity].
  - split; [intros [? | ?]; contradiction | intros [? [=]]].
Qed.

(** X22: a program that imports the module and constructs an adapter gets one
    exactly when the body of the module's [try] has loaded a library and the
    sense is [MINIMIZE] or [MAXIMIZE]. *)
Theorem construct_returns_iff
    (env : Environment) (m : mip.Model) (name sense : string) :
  (∃ self, construct env m name sense = Returned self) ↔
  (∃ highslib, try_loading env = Returned highslib) ∧
  (sense = mip.MINIMIZE ∨ sense = mip.MAXIMIZE).
Proof.
  unfold construct, import_module. unfold mbind, outcome_bind.
  destruct (try_loading env) as [lib|e]; simpl.
  - rewrite (init_returns_for lib m name sense).
    split; [intros H; split; [eauto | exact H] | intros [_ H]; exact H].
  - destruct (isinstance_Exception e); simpl;
      (split; [intros [? [=]] | intros [[? [=]] _]]).
Qed.

